(** * Registration and login endpoints: a shallow embedding

    The development follows the layout of the application:

    - [PyStr]     the string operations the handlers use ([in], [len]);
    - [Uuid]      [uuid.UUID] and its [str];
    - [Schemas]   app/schemas/user.py;
    - [Models]    the [User] entity;
    - [Security]  the token issuer;
    - [Database]  the session the handlers receive;
    - [Auth]      app/routers/auth.py;
    - [Api]       the two routes as the decorators configure them;
    - [Outcome]   the words the properties are stated in;
    - [Sample]    the requests and rows of the end-to-end scenario.

    One character of a Python [str] is one character of a Rocq [string];
    timestamps and durations are whole seconds. *)

From Stdlib Require Import String Ascii List ZArith NArith Bool Lia.
From Stdlib Require Import DecimalString.
Import ListNotations.
Local Open Scope string_scope.
Set Warnings "-register-all".

(** ** Python strings *)

Module PyStr.

(** [hay.startswith(needle)] *)
Fixpoint startswith (needle hay : string) : bool :=
  match needle, hay with
  | EmptyString, _ => true
  | String _ _, EmptyString => false
  | String a needle', String b hay' => Ascii.eqb a b && startswith needle' hay'
  end.

(** [needle in hay] on [str]: [needle] occurs in [hay] as a contiguous
    run of characters. *)
Fixpoint str_in (needle hay : string) : bool :=
  startswith needle hay ||
  match hay with
  | EmptyString => false
  | String _ rest => str_in needle rest
  end.

(** [len(s)] *)
Definition len (s : string) : Z := Z.of_nat (String.length s).

End PyStr.

(** ** uuid.UUID *)

Module Uuid.

(** A UUID is its 128-bit integer. *)
Record UUID := mkUUID { int : N }.

Definition eqb (a b : UUID) : bool := N.eqb (int a) (int b).

Definition hex_digit (d : N) : ascii :=
  match d with
  | 0 => "0" | 1 => "1" | 2 => "2" | 3 => "3" | 4 => "4" | 5 => "5"
  | 6 => "6" | 7 => "7" | 8 => "8" | 9 => "9" | 10 => "a" | 11 => "b"
  | 12 => "c" | 13 => "d" | 14 => "e" | _ => "f"
  end%N%char.

(** ['%032x' % n] *)
Fixpoint hex_fixed (width : nat) (n : N) : string :=
  match width with
  | O => EmptyString
  | S w =>
      hex_fixed w (N.div n 16) ++ String (hex_digit (N.modulo n 16)) EmptyString
  end.

(** [str(u)]: the 8-4-4-4-12 form of the 32 hexadecimal digits. *)
Definition str (u : UUID) : string :=
  let hex := hex_fixed 32 (int u) in
  substring 0 8 hex ++ "-" ++ substring 8 4 hex ++ "-" ++
  substring 12 4 hex ++ "-" ++ substring 16 4 hex ++ "-" ++
  substring 20 12 hex.

End Uuid.

(** ** JSON bodies and HTTP responses *)

Inductive Json : Type :=
| JStr (s : string)
| JNum (z : Z)
| JArr (items : list Json)
| JObj (fields : list (string * Json)).

Definition keys (fields : list (string * Json)) : list string :=
  map fst fields.

Fixpoint lookup (k : string) (fields : list (string * Json)) : option Json :=
  match fields with
  | [] => None
  | (k', v) :: rest => if String.eqb k k' then Some v else lookup k rest
  end.

Record Response := mkResponse { status_code : Z; body : Json }.

(** [HTTPException(status_code=..., detail=...)] *)
Inductive HTTPException := mkHTTPException (status : Z) (detail : string).

(** What the try block of [register] can raise: SQLAlchemy's
    [IntegrityError], or any other exception.  [text] is [str(e)]. *)
Inductive Exception :=
| IntegrityError (text : string)
| OtherError (text : string).

(** ** Effects: state passing with exceptions *)

Inductive Result (E A : Type) : Type :=
| Ok (a : A)
| Raise (e : E).
Arguments Ok {E A} a.
Arguments Raise {E A} e.

(** A computation over a store [S] that returns an [A] or raises an [E];
    the store keeps whatever was done before the exception. *)
Definition M (S E A : Type) : Type := S -> S * Result E A.

Definition ret {S E A} (a : A) : M S E A := fun s => (s, Ok a).

Definition raise {S E A} (e : E) : M S E A := fun s => (s, Raise e).

Definition bind {S E A B} (m : M S E A) (k : A -> M S E B) : M S E B :=
  fun s =>
    match m s with
    | (s', Ok a) => k a s'
    | (s', Raise e) => (s', Raise e)
    end.

(** [try: m  except E as e: h e] *)
Definition try_except {S E E' A} (m : M S E A) (h : E -> M S E' A)
  : M S E' A :=
  fun s =>
    match m s with
    | (s', Ok a) => (s', Ok a)
    | (s', Raise e) => h e s'
    end.

Declare Scope eff_scope.
Delimit Scope eff_scope with eff.
Notation "x <- m ;; k" := (bind m (fun x => k))
  (at level 61, m at next level, right associativity) : eff_scope.
Notation "m ;; k" := (bind m (fun _ => k))
  (at level 61, right associativity) : eff_scope.

(** ** The libraries the application calls *)

Class Externals : Type := {
(** the password hasher: [hash salt plaintext] and [verify plaintext hash] *)
  hash : string -> string -> string;
  verify : string -> string -> bool;
(** [jwt.encode(claims, SECRET_KEY, algorithm=ALGORITHM)] *)
  jwt_encode : list (string * Json) -> string;
(** pydantic's [EmailStr]: the validated address, or [None] *)
  EmailStr : string -> option string;
(** [datetime.isoformat()] *)
  isoformat : Z -> string
}.

(** ** The User entity *)

Module Models.

(** Modelled from the spec: app/models/user.py is not among the sources.
    The entity has the five fields of the data model; [id] and
    [created_at] are given at creation and the hash is set by
    [set_password]. *)
Record User := mkUser {
  id : Uuid.UUID;
  username : string;
  email : string;
  password_hash : string;
  created_at : Z
}.

(** The constraints of the users table: the primary key and the two
    unique columns. *)
Inductive Constraint := PrimaryKey | UniqueUsername | UniqueEmail.

(** What one request reads from outside the program. *)
Record Env := mkEnv {
  utcnow : Z;                         (* the clock *)
  uuid4 : Uuid.UUID;                  (* the identifier drawn for a new row *)
  gensalt : string;                   (* the salt drawn by the hasher *)
  commit_fault : option Exception;    (* a failure of the connection at commit *)
  refresh_fault : option Exception;   (* a failure of the read that follows *)
  constraint_text : Constraint -> User -> string
    (* [str(e)] of the IntegrityError raised when the insertion of a row
       violates a constraint *)
}.

(** [User(username=..., email=...)] *)
Definition new (env : Env) (username email : string) : User :=
  {| id := uuid4 env; username := username; email := email;
     password_hash := EmptyString; created_at := utcnow env |}.

Section WithExternals.
Context `{Externals}.

(** Modelled from the spec: [set_password] stores the hash of the
    plaintext, never the plaintext. *)
Definition set_password (env : Env) (u : User) (password : string) : User :=
  {| id := id u; username := username u; email := email u;
     password_hash := hash (gensalt env) password;
     created_at := created_at u |}.

(** Modelled from the spec: [verify_password] checks the plaintext
    against the stored hash. *)
Definition verify_password (u : User) (password : string) : bool :=
  verify password (password_hash u).
End WithExternals.

End Models.

(** ** Request and response schemas (app/schemas/user.py) *)

Module Schemas.
Import PyStr.

(** A request body whose three members are JSON strings. *)
Module Body.
Record t := mk { username : string; email : string; password : string }.
End Body.

Module UserCreate.
Record t := mk { username : string; email : string; password : string }.

Section WithExternals.
Context `{Externals}.

(** The members that fail their [Field] constraints, in declaration
    order. *)
Definition errors (b : Body.t) : list string :=
  (if ((len (Body.username b) <? 3) || (50 <? len (Body.username b)))%Z
   then ["username"] else []) ++
  (match EmailStr (Body.email b) with
   | None => ["email"]
   | Some _ => []
   end) ++
  (if (len (Body.password b) <? 8)%Z then ["password"] else []).

(** Validation of a body against the model: the model, or the members
    that failed. *)
Definition validate (b : Body.t) : Result (list string) t :=
  match errors b, EmailStr (Body.email b) with
  | [], Some e =>
      Ok {| username := Body.username b; email := e;
            password := Body.password b |}
  | errs, _ => Raise errs
  end.
End WithExternals.
End UserCreate.

Module UserRead.
Record t := mk {
  id : Uuid.UUID;
  username : string;
  email : string;
  created_at : Z
}.

(** [from_attributes = True]: built from the attributes of the same
    names. *)
Definition from_attributes (u : Models.User) : t :=
  {| id := Models.id u; username := Models.username u;
     email := Models.email u; created_at := Models.created_at u |}.

Section WithExternals.
Context `{Externals}.

(** The JSON object of the model, one member per declared field. *)
Definition dump (r : t) : Json :=
  JObj [("id", JStr (Uuid.str (id r)));
        ("username", JStr (username r));
        ("email", JStr (email r));
        ("created_at", JStr (isoformat (created_at r)))].
End WithExternals.
End UserRead.

Module UserLogin.
Record t := mk { email : string; password : string }.

Module Body.
Record t := mk { email : string; password : string }.
End Body.

Section WithExternals.
Context `{Externals}.

Definition validate (b : Body.t) : Result (list string) t :=
  match EmailStr (Body.email b) with
  | Some e => Ok {| email := e; password := Body.password b |}
  | None => Raise ["email"]
  end.
End WithExternals.
End UserLogin.

Module TokenResponse.
Record t := mk {
  access_token : string;
  token_type : string;
  user : UserRead.t
}.

Section WithExternals.
Context `{Externals}.

Definition dump (r : t) : Json :=
  JObj [("access_token", JStr (access_token r));
        ("token_type", JStr (token_type r));
        ("user", UserRead.dump (user r))].
End WithExternals.
End TokenResponse.

End Schemas.

(** ** The database session *)

Module Database.
Import Models.

(** The operations a handler performs on the hasher and on the session. *)
Inductive Call := Hash | Add | Commit | Rollback | Refresh | Query.

(** The users table as committed, the objects added to the session and
    not yet written, and the calls made so far (oldest first). *)
Record World := mkWorld {
  table : list User;
  pending : list User;
  trace : list Call
}.

Definition log (c : Call) (w : World) : World :=
  {| table := table w; pending := pending w; trace := trace w ++ [c] |}.

(** The constraint the insertion of [u] into [rows] violates, if any.
    When a row violates several constraints the one that is reported is
    the database's choice; the properties below do not depend on it. *)
Definition violated (rows : list User) (u : User) : option Constraint :=
  if existsb (fun r => Uuid.eqb (id r) (id u)) rows then Some PrimaryKey
  else if existsb (fun r => String.eqb (username r) (username u)) rows
       then Some UniqueUsername
  else if existsb (fun r => String.eqb (email r) (email u)) rows
       then Some UniqueEmail
  else None.

(** The INSERTs of a flush, inside one transaction: the table with every
    pending row appended, or the error of the first row that is refused. *)
Fixpoint flush (env : Env) (rows new : list User) : Result Exception (list User) :=
  match new with
  | [] => Ok rows
  | u :: rest =>
      match violated rows u with
      | Some c => Raise (IntegrityError (constraint_text env c u))
      | None => flush env (rows ++ [u]) rest
      end
  end.

(** [db.add(obj)] *)
Definition add (u : User) : M World Exception unit :=
  fun w =>
    ({| table := table w; pending := pending w ++ [u];
        trace := trace w ++ [Add] |}, Ok tt).

(** [db.commit()]: all pending rows are written, or the transaction is
    rolled back by the session itself, which leaves the table as it was
    and expunges the objects that were added, and the exception is
    raised. *)
Definition commit (env : Env) : M World Exception unit :=
  fun w =>
    let failed :=
      {| table := table w; pending := []; trace := trace w ++ [Commit] |} in
    match commit_fault env with
    | Some e => (failed, Raise e)
    | None =>
        match flush env (table w) (pending w) with
        | Ok rows =>
            ({| table := rows; pending := []; trace := trace w ++ [Commit] |},
             Ok tt)
        | Raise e => (failed, Raise e)
        end
    end.

(** [db.rollback()]: what was added and not committed is dropped. *)
Definition rollback {E} : M World E unit :=
  fun w =>
    ({| table := table w; pending := []; trace := trace w ++ [Rollback] |},
     Ok tt).

(** [db.refresh(obj)]: the attributes are read back from the row of the
    object's primary key; the read can fail like any other statement. *)
Definition refresh (env : Env) (u : User) : M World Exception User :=
  fun w =>
    match refresh_fault env with
    | Some e => (log Refresh w, Raise e)
    | None =>
        match find (fun r => Uuid.eqb (id r) (id u)) (table w) with
        | Some r => (log Refresh w, Ok r)
        | None =>
            (log Refresh w,
             Raise (OtherError "Could not refresh instance"))
        end
    end.

(** [db.query(User).filter(User.email == email).first()] *)
Definition query_first_by_email {E} (addr : string) : M World E (option User) :=
  fun w =>
    (log Query w, Ok (find (fun r => String.eqb (email r) addr) (table w))).

End Database.

(** ** The token issuer *)

Module Security.

(** [timedelta(minutes=m)] *)
Definition timedelta_minutes (m : Z) : Z := (m * 60)%Z.

Section WithExternals.
Context `{Externals}.

(** Modelled from the spec: app/utils/security.py is not among the
    sources.  The issuer signs the claims it is given together with an
    expiry [expires_delta] after the time of issue. *)
Definition create_access_token (env : Models.Env)
    (data : list (string * Json)) (expires_delta : Z) : string :=
  let expire := (Models.utcnow env + expires_delta)%Z in
  jwt_encode (data ++ [("exp", JNum expire)]).

End WithExternals.
End Security.

(** ** The handlers (app/routers/auth.py) *)

Module Auth.
Import PyStr Models Database Schemas.
Local Open Scope eff_scope.

(** The dictionary [login] returns. *)
Record LoginResult := mkLoginResult {
  access_token : string;
  token_type : string;
  user : User
}.

Section WithExternals.
Context `{Externals}.
Variable env : Env.

(** [db_user.set_password(password)], recorded in the trace. *)
Definition set_password (db_user : User) (password : string)
  : M World Exception User :=
  fun w => (log Hash w, Ok (Models.set_password env db_user password)).

(** The body of the [try] of [register]. *)
Definition register_try (user_data : UserCreate.t) : M World Exception User :=
  let db_user :=
    Models.new env (UserCreate.username user_data) (UserCreate.email user_data) in
  db_user <- set_password db_user (UserCreate.password user_data) ;;
  add db_user ;;
  commit env ;;
  db_user <- refresh env db_user ;;
  ret db_user.

(** The two [except] clauses of [register]. *)
Definition register_except (e : Exception) : M World HTTPException User :=
  match e with
  | IntegrityError text =>
      rollback ;;
      if str_in "username" text then
        raise (mkHTTPException 400 "Username already exists")
      else if str_in "email" text then
        raise (mkHTTPException 400 "Email already exists")
      else
        raise (mkHTTPException 400 "Registration failed")
  | OtherError text =>
      rollback ;;
      raise (mkHTTPException 500 ("Internal server error: " ++ text))
  end.

(** [register(user_data, db)] *)
Definition register (user_data : UserCreate.t) : M World HTTPException User :=
  try_except (register_try user_data) register_except.

(** [login(credentials, db)] *)
Definition login (credentials : UserLogin.t) : M World HTTPException LoginResult :=
  db_user <- query_first_by_email (UserLogin.email credentials) ;;
  match db_user with
  | None => raise (mkHTTPException 401 "Invalid email or password")
  | Some db_user =>
      if negb (verify_password db_user (UserLogin.password credentials)) then
        raise (mkHTTPException 401 "Invalid email or password")
      else
        let access_token_expires := Security.timedelta_minutes 30 in
        let access_token :=
          Security.create_access_token env
            [("sub", JStr (Uuid.str (id db_user)))]
            access_token_expires in
        ret {| access_token := access_token;
               token_type := "bearer";
               user := db_user |}
  end.

End WithExternals.
End Auth.

(** ** The routes *)

Module Api.
Import Models Database Schemas.

Section WithExternals.
Context `{Externals}.
Variable env : Env.

(** The response to a body that fails validation: status 422 and the
    members that failed. *)
Definition validation_error (errs : list string) : Response :=
  {| status_code := 422;
     body := JObj [("detail",
                    JArr (map (fun f => JObj [("loc", JArr [JStr "body"; JStr f])])
                              errs))] |}.

(** The response to a raised [HTTPException]. *)
Definition http_error (e : HTTPException) : Response :=
  match e with
  | mkHTTPException status detail =>
      {| status_code := status; body := JObj [("detail", JStr detail)] |}
  end.

(** [POST /api/auth/register], [response_model=UserRead],
    [status_code=201]: the body is validated, then the handler runs and
    its result is rendered through the response model. *)
Definition post_register (b : Body.t) (w : World) : World * Response :=
  match UserCreate.validate b with
  | Raise errs => (w, validation_error errs)
  | Ok user_data =>
      match Auth.register env user_data w with
      | (w', Ok db_user) =>
          (w', {| status_code := 201;
                  body := UserRead.dump (UserRead.from_attributes db_user) |})
      | (w', Raise e) => (w', http_error e)
      end
  end.

(** [POST /api/auth/login], [response_model=TokenResponse]; the status of
    a returned result is the default, 200. *)
Definition post_login (b : UserLogin.Body.t) (w : World) : World * Response :=
  match UserLogin.validate b with
  | Raise errs => (w, validation_error errs)
  | Ok credentials =>
      match Auth.login env credentials w with
      | (w', Ok r) =>
          (w', {| status_code := 200;
                  body :=
                    TokenResponse.dump
                      {| TokenResponse.access_token := Auth.access_token r;
                         TokenResponse.token_type := Auth.token_type r;
                         TokenResponse.user :=
                           UserRead.from_attributes (Auth.user r) |} |})
      | (w', Raise e) => (w', http_error e)
      end
  end.

End WithExternals.
End Api.

(** ** The test fixtures (tests/conftest.py) *)

Module Conftest.
Import Models Database Schemas.
Local Open Scope eff_scope.

(** What Faker returns for one fake user. *)
Module Faker.
Record t := mk { user_name : string; email : string }.
End Faker.

(** [create_fake_user()] *)
Definition create_fake_user (fake : Faker.t) : Body.t :=
  {| Body.username := Faker.user_name fake;
     Body.email := Faker.email fake;
     Body.password := "TestPassword123" |}.

(** [for i in ixs: acc = body(i, acc)] *)
Fixpoint for_each {S E A} (ixs : list nat) (body : nat -> A -> M S E A)
    (acc : A) : M S E A :=
  match ixs with
  | [] => ret acc
  | i :: rest => acc' <- body i acc ;; for_each rest body acc'
  end.

(** [try: m  finally: f] *)
Definition try_finally {S E A} (m : M S E A) (f : M S E unit) : M S E A :=
  fun s =>
    match m s with
    | (s', r) =>
        match f s' with
        | (s'', Ok _) => (s'', r)
        | (s'', Raise e) => (s'', Raise e)
        end
    end.

(** test.db: the rows of the users table, when the table exists. *)
Definition TestDb : Type := option (list User).

(** [Base.metadata.create_all(bind=engine)], as the rows of the users
    table afterwards: a missing table is created empty, a table that is
    there is left as it is. *)
Definition create_all (d : TestDb) : list User :=
  match d with
  | Some rows => rows
  | None => []
  end.

(** [Base.metadata.drop_all(bind=engine)] *)
Definition drop_all (rows : list User) : TestDb := None.

(** [SessionLocal()]: a new session on the database. *)
Definition SessionLocal (rows : list User) : World :=
  {| table := rows; pending := []; trace := [] |}.

(** [db_session] around what runs between its setup and its teardown,
    the fixtures that depend on it and the test; the teardown runs
    whatever the outcome of that code. *)
Definition db_session {E A} (test : M World E A) (d : TestDb)
  : TestDb * Result E A :=
  let session := SessionLocal (create_all d) in
  match test session with
  | (session', outcome) => (drop_all (table session'), outcome)
  end.

(** The state of a [managed_db_session] block: its session, whether the
    session was closed, and what [logger.error] wrote. *)
Record Harness := mkHarness {
  session : World;
  closed : bool;
  errors : list string
}.

(** A call on the session. *)
Definition on_session {E A} (m : M World E A) : M Harness E A :=
  fun h =>
    match m (session h) with
    | (s, r) => ({| session := s; closed := closed h; errors := errors h |}, r)
    end.

(** [logger.error(line)] *)
Definition logger_error {E} (line : string) : M Harness E unit :=
  fun h =>
    ({| session := session h; closed := closed h;
        errors := errors h ++ [line] |}, Ok tt).

(** [session.close()]: what the session still holds is released. *)
Definition close {E} : M Harness E unit :=
  fun h =>
    ({| session := {| table := table (session h); pending := [];
                      trace := trace (session h) |};
        closed := true; errors := errors h |}, Ok tt).

(** [str(e)] *)
Definition str_of (e : Exception) : string :=
  match e with
  | IntegrityError text => text
  | OtherError text => text
  end.

(** [with managed_db_session() as session: body], on a database whose
    tables exist. *)
Definition managed_db_session {A} (env : Env) (body : M World Exception A)
    (rows : list User) : Harness * Result Exception A :=
  let h := {| session := SessionLocal rows; closed := false; errors := [] |} in
  try_finally
    (try_except
       (a <- on_session body ;;
        on_session (commit env) ;;
        ret a)
       (fun e =>
          on_session rollback ;;
          logger_error ("Session error: " ++ str_of e) ;;
          raise e))
    close h.

Section WithExternals.
Context `{Externals}.

(** [test_user(db_session)] *)
Definition test_user (env : Env) : M World Exception User :=
  let user := Models.new env "testuser" "test@example.com" in
  user <- Auth.set_password env user "TestPassword123" ;;
  add user ;;
  commit env ;;
  user <- refresh env user ;;
  ret user.

(** [seed_users(db_session)].  [draws i] is what iteration [i] reads from
    outside (identifier, clock, salt) and [fakes i] what Faker returns in
    it; [env] is the environment of the commit. *)
Definition seed_users (env : Env) (draws : nat -> Env) (fakes : nat -> Faker.t)
  : M World Exception (list User) :=
  users <-
    for_each (seq 0 3)
      (fun i users =>
         let user_data := create_fake_user (fakes i) in
         let user :=
           Models.new (draws i) (Body.username user_data) (Body.email user_data) in
         user <- Auth.set_password (draws i) user (Body.password user_data) ;;
         let users := (users ++ [user])%list in
         add user ;;
         ret users)
      [] ;;
  commit env ;;
  ret users.

End WithExternals.
End Conftest.

(** ** Vocabulary of the properties *)

Module Outcome.
Import Models Database Schemas.

Section WithExternals.
Context `{Externals}.

(** The row a registration request asks the store to create. *)
Definition new_row (env : Env) (user_data : UserCreate.t) : User :=
  Models.set_password env
    (Models.new env (UserCreate.username user_data) (UserCreate.email user_data))
    (UserCreate.password user_data).

(** The response to a login that succeeded for [db_user], member by
    member. *)
Definition login_response (env : Env) (db_user : User) : Response :=
  {| status_code := 200;
     body :=
       JObj [("access_token",
              JStr (Security.create_access_token env
                      [("sub", JStr (Uuid.str (id db_user)))]
                      (Security.timedelta_minutes 30)));
             ("token_type", JStr "bearer");
             ("user",
              JObj [("id", JStr (Uuid.str (id db_user)));
                    ("username", JStr (username db_user));
                    ("email", JStr (email db_user));
                    ("created_at", JStr (isoformat (created_at db_user)))])] |}.

End WithExternals.

(** The world after the pending writes were dropped by a rollback. *)
Definition rolled_back (w : World) : World :=
  {| table := table w; pending := []; trace := trace w ++ [Rollback] |}.

(** The response that carries an error detail. *)
Definition error_response (status : Z) (detail : string) : Response :=
  {| status_code := status; body := JObj [("detail", JStr detail)] |}.

Definition invalid_credentials : HTTPException :=
  mkHTTPException 401 "Invalid email or password".

End Outcome.

(** ** Vocabulary of the store and fixture properties *)

Module Store.
Import Models Database Schemas.

(** No two rows share an id, a username or an email. *)
Definition unique_rows (rows : list User) : Prop :=
  NoDup (map id rows) /\ NoDup (map username rows) /\ NoDup (map email rows).

(** No row has the id, the username or the email of [u]. *)
Definition fresh_for (rows : list User) (u : User) : Prop :=
  forall r, In r rows ->
    id r <> id u /\ username r <> username u /\ email r <> email u.

Section WithExternals.
Context `{Externals}.

(** The row the [test_user] fixture creates. *)
Definition test_row (env : Env) : User :=
  Models.set_password env
    (Models.new env "testuser" "test@example.com") "TestPassword123".

(** The row [seed_users] creates from one draw. *)
Definition seeded (draw : Env) (fake : Conftest.Faker.t) : User :=
  Models.set_password draw
    (Models.new draw (Conftest.Faker.user_name fake) (Conftest.Faker.email fake))
    "TestPassword123".

(** What a successful login returns for [db_user]. *)
Definition logged_in (env : Env) (db_user : User) : Auth.LoginResult :=
  {| Auth.access_token :=
       Security.create_access_token env
         [("sub", JStr (Uuid.str (id db_user)))]
         (Security.timedelta_minutes 30);
     Auth.token_type := "bearer";
     Auth.user := db_user |}.

End WithExternals.
End Store.

(** ** Sample data

    A stand-in for the libraries, the rows and requests of the end-to-end
    scenario, and the text SQLAlchemy gives an IntegrityError on SQLite. *)

Module Sample.
Import PyStr Models Database Schemas.

Definition show_Z (z : Z) : string := NilZero.string_of_int (Z.to_int z).

Definition show_claim (kv : string * Json) : string :=
  fst kv ++ "=" ++
  match snd kv with
  | JStr s => s
  | JNum z => show_Z z
  | _ => "?"
  end.

(** Stand-ins that compute; none of the theorems depends on them. *)
Definition plain : Externals :=
  {| hash := fun salt p => "$" ++ salt ++ "$" ++ p;
     verify := fun p h => str_in ("$" ++ p) h;
     jwt_encode := fun claims => "jwt{" ++ String.concat ";" (map show_claim claims) ++ "}";
     EmailStr := fun s => if str_in "@" s then Some s else None;
     isoformat := fun t => "T" ++ show_Z t |}.

Definition newline : string := String (ascii_of_nat 10) EmptyString.

Definition column (c : Constraint) : string :=
  match c with
  | PrimaryKey => "id"
  | UniqueUsername => "username"
  | UniqueEmail => "email"
  end.

(** [str(e)] of SQLAlchemy's IntegrityError on SQLite: the driver's
    message, then the statement that failed (the parameters and the link
    that follow are left out). *)
Definition sqlite_text (c : Constraint) (u : User) : string :=
  "(sqlite3.IntegrityError) UNIQUE constraint failed: users." ++ column c ++
  newline ++
  "[SQL: INSERT INTO users (id, username, email, password_hash, created_at) VALUES (?, ?, ?, ?, ?)]".

(** A driver that names only the column that collided. *)
Definition column_text (c : Constraint) (u : User) : string :=
  "UNIQUE constraint failed: users." ++ column c.

Definition env0 : Env :=
  {| utcnow := 1762603200;
     uuid4 := Uuid.mkUUID 0x550e8400e29b41d4a716446655440000;
     gensalt := "salt";
     commit_fault := None;
     refresh_fault := None;
     constraint_text := sqlite_text |}.

(** The same request with the connection lost at commit. *)
Definition env_down : Env :=
  {| utcnow := utcnow env0; uuid4 := uuid4 env0; gensalt := gensalt env0;
     commit_fault := Some (OtherError "connection to server was lost");
     refresh_fault := None;
     constraint_text := sqlite_text |}.

(** The same request refused by a constraint whose message names neither
    column. *)
Definition env_check : Env :=
  {| utcnow := utcnow env0; uuid4 := uuid4 env0; gensalt := gensalt env0;
     commit_fault := Some (IntegrityError "CHECK constraint failed: users");
     refresh_fault := None;
     constraint_text := sqlite_text |}.

(** A later request, with another identifier drawn. *)
Definition env1 : Env :=
  {| utcnow := 1762603260;
     uuid4 := Uuid.mkUUID 0x6ba7b8109dad11d180b400c04fd430c8;
     gensalt := "pepper";
     commit_fault := None;
     refresh_fault := None;
     constraint_text := sqlite_text |}.

Definition empty : World := {| table := []; pending := []; trace := [] |}.

Definition john_body : Body.t :=
  {| Body.username := "johndoe"; Body.email := "john@example.com";
     Body.password := "SecurePass123" |}.

Definition john_data : UserCreate.t :=
  {| UserCreate.username := "johndoe"; UserCreate.email := "john@example.com";
     UserCreate.password := "SecurePass123" |}.

Definition john : User :=
  {| id := uuid4 env0; username := "johndoe"; email := "john@example.com";
     password_hash := "$salt$SecurePass123"; created_at := utcnow env0 |}.

(** The store once john has registered. *)
Definition registered : World :=
  {| table := [john]; pending := []; trace := [] |}.

(** Another username, john's email. *)
Definition jane_body : Body.t :=
  {| Body.username := "janedoe"; Body.email := "john@example.com";
     Body.password := "AnotherPass456" |}.

Definition jane_data : UserCreate.t :=
  {| UserCreate.username := "janedoe"; UserCreate.email := "john@example.com";
     UserCreate.password := "AnotherPass456" |}.

Definition short_body : Body.t :=
  {| Body.username := "jo"; Body.email := "john@example.com";
     Body.password := "SecurePass123" |}.

Definition good_login : UserLogin.Body.t :=
  {| UserLogin.Body.email := "john@example.com";
     UserLogin.Body.password := "SecurePass123" |}.

Definition wrong_password : UserLogin.Body.t :=
  {| UserLogin.Body.email := "john@example.com";
     UserLogin.Body.password := "wrong" |}.

Definition unknown_email : UserLogin.Body.t :=
  {| UserLogin.Body.email := "nobody@example.com";
     UserLogin.Body.password := "SecurePass123" |}.

Definition unknown_credentials : UserLogin.t :=
  {| UserLogin.email := "nobody@example.com";
     UserLogin.password := "SecurePass123" |}.

Definition wrong_credentials : UserLogin.t :=
  {| UserLogin.email := "john@example.com"; UserLogin.password := "wrong" |}.

Definition good_credentials : UserLogin.t :=
  {| UserLogin.email := "john@example.com";
     UserLogin.password := "SecurePass123" |}.

Definition after_login : World :=
  {| table := [john]; pending := []; trace := [Query] |}.

Definition good_result : Auth.LoginResult :=
  {| Auth.access_token :=
       "jwt{sub=550e8400-e29b-41d4-a716-446655440000;exp=1762605060}";
     Auth.token_type := "bearer";
     Auth.user := john |}.

Definition after_register : World :=
  {| table := [john]; pending := [];
     trace := [Hash; Add; Commit; Refresh] |}.

End Sample.

(** ** Sample data for the fixtures *)

Module Fixtures.
Import PyStr Models Database Schemas Sample.

Definition fakes (i : nat) : Conftest.Faker.t :=
  match i with
  | 0 => {| Conftest.Faker.user_name := "alice";
            Conftest.Faker.email := "alice@example.org" |}
  | 1 => {| Conftest.Faker.user_name := "bob";
            Conftest.Faker.email := "bob@example.org" |}
  | _ => {| Conftest.Faker.user_name := "carol";
            Conftest.Faker.email := "carol@example.org" |}
  end%nat.

(** Faker returns the same username twice. *)
Definition repeated (i : nat) : Conftest.Faker.t :=
  match i with
  | 0 => {| Conftest.Faker.user_name := "alice";
            Conftest.Faker.email := "alice@example.org" |}
  | 1 => {| Conftest.Faker.user_name := "alice";
            Conftest.Faker.email := "alice2@example.org" |}
  | _ => {| Conftest.Faker.user_name := "carol";
            Conftest.Faker.email := "carol@example.org" |}
  end%nat.

Definition draws (i : nat) : Env :=
  {| utcnow := 1762603200 + Z.of_nat i;
     uuid4 := Uuid.mkUUID (1000 + N.of_nat i);
     gensalt := "salt";
     commit_fault := None;
     refresh_fault := None;
     constraint_text := sqlite_text |}.

Definition test_body : UserLogin.Body.t :=
  {| UserLogin.Body.email := "test@example.com";
     UserLogin.Body.password := "TestPassword123" |}.


Definition long_name_body : Body.t :=
  {| Body.username := "johndoe"; Body.email := "no-at-sign";
     Body.password := "SecurePass123" |}.

Definition bad_login : UserLogin.Body.t :=
  {| UserLogin.Body.email := "no-at-sign"; UserLogin.Body.password := "x" |}.


Definition mary_data : UserCreate.t :=
  {| UserCreate.username := "marydoe"; UserCreate.email := "mary@example.com";
     UserCreate.password := "AnotherPass456" |}.

(** John's username with an email that is free. *)
Definition jd_body : Body.t :=
  {| Body.username := "johndoe"; Body.email := "jd@example.com";
     Body.password := "AnotherPass456" |}.

Definition jd_data : UserCreate.t :=
  {| UserCreate.username := "johndoe"; UserCreate.email := "jd@example.com";
     UserCreate.password := "AnotherPass456" |}.

(** An email check that, like the one of the schema, returns the address
    with its domain in lower case. *)
Definition lower_char (c : ascii) : ascii :=
  let n := nat_of_ascii c in
  if ((65 <=? n) && (n <=? 90))%nat then ascii_of_nat (n + 32) else c.

Fixpoint lower (s : string) : string :=
  match s with
  | EmptyString => EmptyString
  | String c rest => String (lower_char c) (lower rest)
  end.

Fixpoint lower_domain (s : string) : string :=
  match s with
  | EmptyString => EmptyString
  | String c rest =>
      if Ascii.eqb c "@" then String c (lower rest)
      else String c (lower_domain rest)
  end.

Definition normalising : Externals :=
  {| hash := hash (Externals := plain);
     verify := verify (Externals := plain);
     jwt_encode := jwt_encode (Externals := plain);
     EmailStr := fun s => if str_in "@" s then Some (lower_domain s) else None;
     isoformat := isoformat (Externals := plain) |}.

(** John's address as a client may send it. *)
Definition shouting_login : UserLogin.Body.t :=
  {| UserLogin.Body.email := "john@EXAMPLE.COM";
     UserLogin.Body.password := "SecurePass123" |}.

(** John's address with another first letter. *)
Definition capital_login : UserLogin.Body.t :=
  {| UserLogin.Body.email := "John@example.com";
     UserLogin.Body.password := "SecurePass123" |}.

(** The connection is lost after the commit, at the read that follows. *)
Definition env_read_lost : Env :=
  {| utcnow := utcnow env0; uuid4 := uuid4 env0; gensalt := gensalt env0;
     commit_fault := None;
     refresh_fault := Some (OtherError "connection to server was lost");
     constraint_text := sqlite_text |}.

(** A driver whose text for a refused row names the column only. *)
Definition env_column : Env :=
  {| utcnow := utcnow env1; uuid4 := uuid4 env1; gensalt := gensalt env1;
     commit_fault := None; refresh_fault := None;
     constraint_text := column_text |}.

End Fixtures.

(** * Properties *)

(** ** Substring test *)

Module PyStrFacts.
Import PyStr.

Lemma str_in_unfold needle hay :
  str_in needle hay =
  startswith needle hay ||
  match hay with
  | EmptyString => false
  | String _ rest => str_in needle rest
  end.
Proof. destruct hay; reflexivity. Qed.

Lemma startswith_app needle rest : startswith needle (needle ++ rest) = true.
Proof.
  induction needle as [|a needle IH]; simpl.
  - reflexivity.
  - now rewrite Ascii.eqb_refl, IH.
Qed.

Lemma startswith_split needle :
  forall hay, startswith needle hay = true -> exists rest, hay = needle ++ rest.
Proof.
  induction needle as [|a needle IH]; intros hay Hs.
  - exists hay. reflexivity.
  - destruct hay as [|b hay]; simpl in Hs; [discriminate|].
    apply andb_true_iff in Hs. destruct Hs as [Hab Hrest].
    apply Ascii.eqb_eq in Hab. subst b.
    destruct (IH hay Hrest) as [rest ->].
    exists rest. reflexivity.
Qed.

Lemma str_in_app needle before after :
  str_in needle (before ++ needle ++ after) = true.
Proof.
  induction before as [|c before IH].
  - simpl append. rewrite str_in_unfold, startswith_app. reflexivity.
  - simpl. rewrite IH. apply orb_true_r.
Qed.

(** [str_in] is Python's [in]: the needle occurs somewhere in the text. *)
Lemma str_in_spec needle hay :
  str_in needle hay = true <->
  exists before after, hay = before ++ needle ++ after.
Proof.
  split.
  - induction hay as [|c hay IH]; intros Hin; rewrite str_in_unfold in Hin;
      apply orb_true_iff in Hin; destruct Hin as [Hs|Hr].
    + destruct (startswith_split _ _ Hs) as [rest ->].
      exists EmptyString, rest. reflexivity.
    + discriminate.
    + destruct (startswith_split _ _ Hs) as [rest ->].
      exists EmptyString, rest. reflexivity.
    + destruct (IH Hr) as (before & after & ->).
      exists (String c before), after. reflexivity.
  - intros (before & after & ->). apply str_in_app.
Qed.

Lemma str_in_suffix needle before : str_in needle (before ++ needle) = true.
Proof.
  apply str_in_spec. exists before, EmptyString.
  f_equal. induction needle as [|a n IH]; simpl; [reflexivity | now rewrite <- IH].
Qed.

End PyStrFacts.

(** ** The session *)

Module DatabaseFacts.
Import Models Database.
Local Open Scope list_scope.

Lemma uuid_eqb_refl u : Uuid.eqb u u = true.
Proof. unfold Uuid.eqb. apply N.eqb_refl. Qed.

Lemma flush_ok env :
  forall added rows rows',
    flush env rows added = Ok rows' -> rows' = rows ++ added.
Proof.
  induction added as [|u added IH]; intros rows rows' Hf; simpl in Hf.
  - inversion Hf. now rewrite app_nil_r.
  - destruct (violated rows u); [discriminate|].
    rewrite (IH _ _ Hf), <- app_assoc. reflexivity.
Qed.

(** A flush that goes through has checked its last row against all rows
    before it. *)
Lemma flush_last env u :
  forall added rows rows',
    flush env rows (added ++ [u]) = Ok rows' -> violated (rows ++ added) u = None.
Proof.
  induction added as [|v added IH]; intros rows rows' Hf; simpl in Hf.
  - rewrite app_nil_r. destruct (violated rows u); [discriminate | reflexivity].
  - destruct (violated rows v); [discriminate|].
    apply IH in Hf. rewrite <- app_assoc in Hf. exact Hf.
Qed.

(** A flush raises nothing but integrity errors. *)
Lemma flush_raise env :
  forall added rows e,
    flush env rows added = Raise e -> exists text, e = IntegrityError text.
Proof.
  induction added as [|u added IH]; intros rows e Hf; simpl in Hf.
  - discriminate.
  - destruct (violated rows u).
    + inversion Hf. eexists. reflexivity.
    + eapply IH. exact Hf.
Qed.

Lemma violated_none_id rows u :
  violated rows u = None ->
  existsb (fun r => Uuid.eqb (id r) (id u)) rows = false.
Proof.
  unfold violated.
  destruct (existsb (fun r => Uuid.eqb (id r) (id u)) rows); [discriminate|].
  reflexivity.
Qed.

Lemma find_fresh_last (p : User -> bool) rows u :
  existsb p rows = false -> p u = true -> find p (rows ++ [u]) = Some u.
Proof.
  induction rows as [|r rows IH]; simpl; intros Hex Hp.
  - now rewrite Hp.
  - apply orb_false_iff in Hex. destruct Hex as [Hr Hrows].
    rewrite Hr. now apply IH.
Qed.

(** After a flush that goes through, the row read back by primary key is
    the row that was added last. *)
Lemma find_after_flush env u added rows rows' :
  flush env rows (added ++ [u]) = Ok rows' ->
  find (fun r => Uuid.eqb (id r) (id u)) rows' = Some u.
Proof.
  intros Hf.
  rewrite (flush_ok _ _ _ _ Hf), app_assoc.
  apply find_fresh_last.
  - apply violated_none_id. eapply flush_last. exact Hf.
  - apply uuid_eqb_refl.
Qed.

End DatabaseFacts.

(** ** The handlers, step by step *)

Module AuthFacts.
Import PyStr Models Database Schemas Outcome.
Local Open Scope list_scope.

Section WithExternals.
Context `{Externals}.
Variable env : Env.

(** What the try block of [register] does: hash, add, commit and, when
    the commit went through, read the row back. *)
Lemma register_try_run user_data w :
  let u := new_row env user_data in
  let failed :=
    {| table := table w; pending := [];
       trace := trace w ++ [Hash; Add; Commit] |} in
  Auth.register_try env user_data w =
  match commit_fault env with
  | Some e => (failed, Raise e)
  | None =>
      match flush env (table w) (pending w ++ [u]) with
      | Ok rows =>
          ({| table := rows; pending := [];
              trace := trace w ++ [Hash; Add; Commit; Refresh] |},
           match refresh_fault env with
           | Some e => Raise e
           | None => Ok u
           end)
      | Raise e => (failed, Raise e)
      end
  end.
Proof.
  unfold Auth.register_try, Auth.set_password.
  change (Models.set_password env _ _) with (new_row env user_data).
  generalize (new_row env user_data). intros u. cbv zeta.
  unfold bind, add, commit, refresh, ret, log. simpl.
  destruct (commit_fault env) as [e|].
  - rewrite <- !app_assoc. reflexivity.
  - destruct (flush env (table w) (pending w ++ [u])) as [rows|e] eqn:Hf; simpl.
    + destruct (refresh_fault env) as [e|]; simpl.
      * rewrite <- !app_assoc. reflexivity.
      * rewrite (DatabaseFacts.find_after_flush _ _ _ _ _ Hf).
        rewrite <- !app_assoc. reflexivity.
    + rewrite <- !app_assoc. reflexivity.
Qed.

(** A successful try has persisted the new row after everything that was
    pending. *)
Lemma register_try_ok user_data w w' u :
  Auth.register_try env user_data w = (w', Ok u) ->
  u = new_row env user_data /\
  table w' = table w ++ pending w ++ [u] /\
  pending w' = [] /\
  trace w' = trace w ++ [Hash; Add; Commit; Refresh].
Proof.
  rewrite register_try_run.
  destruct (commit_fault env); [discriminate|].
  destruct (flush _ _ _) as [rows|e] eqn:Hf; [|discriminate].
  destruct (refresh_fault env); [discriminate|].
  intros Heq. inversion Heq; subst. simpl.
  apply DatabaseFacts.flush_ok in Hf. now rewrite Hf.
Qed.



(** With the connection up, nothing pending and a row that violates no
    constraint, the try block succeeds. *)
Lemma register_try_fresh user_data w :
  commit_fault env = None ->
  refresh_fault env = None ->
  pending w = [] ->
  violated (table w) (new_row env user_data) = None ->
  snd (Auth.register_try env user_data w) = Ok (new_row env user_data).
Proof.
  intros Hup Hread Hnone Hfresh.
  rewrite register_try_run, Hup, Hread, Hnone. simpl.
  rewrite Hfresh. reflexivity.
Qed.

(** The handler is its try block followed, on an exception, by the
    matching except clause. *)
Lemma register_run user_data w :
  Auth.register env user_data w =
  match Auth.register_try env user_data w with
  | (w', Ok u) => (w', Ok u)
  | (w', Raise e) => Auth.register_except e w'
  end.
Proof. reflexivity. Qed.

(** Either except clause rolls back and then raises. *)
Lemma register_except_run e w :
  exists status detail,
    Auth.register_except e w =
    (rolled_back w, Raise (mkHTTPException status detail)).
Proof.
  destruct e as [text|text]; unfold Auth.register_except, bind, rollback; simpl.
  - destruct (str_in "username" text); [|destruct (str_in "email" text)];
      eexists _, _; reflexivity.
  - eexists _, _; reflexivity.
Qed.

Lemma register_except_integrity text w :
  Auth.register_except (IntegrityError text) w =
  (rolled_back w,
   Raise (mkHTTPException 400
            (if str_in "username" text then "Username already exists"
             else if str_in "email" text then "Email already exists"
             else "Registration failed")%string)).
Proof.
  unfold Auth.register_except, bind, rollback; simpl.
  destruct (str_in "username" text); [|destruct (str_in "email" text)];
    reflexivity.
Qed.

Lemma register_except_other text w :
  Auth.register_except (OtherError text) w =
  (rolled_back w,
   Raise (mkHTTPException 500 ("Internal server error: " ++ text)%string)).
Proof. reflexivity. Qed.

(** An integrity error whose text names the username column is reported
    as a username conflict. *)
Lemma register_integrity_username user_data w text :
  snd (Auth.register_try env user_data w) = Raise (IntegrityError text) ->
  str_in "username" text = true ->
  snd (Auth.register env user_data w) =
  Raise (mkHTTPException 400 "Username already exists").
Proof.
  intros Htry Hu. rewrite register_run.
  destruct (Auth.register_try env user_data w) as [w' r]. simpl in Htry. subst r.
  rewrite register_except_integrity, Hu. reflexivity.
Qed.

(** An integrity error whose text names the email column and does not
    contain "username" is reported as an email conflict. *)
Lemma register_integrity_email user_data w text :
  snd (Auth.register_try env user_data w) = Raise (IntegrityError text) ->
  str_in "username" text = false ->
  str_in "email" text = true ->
  snd (Auth.register env user_data w) =
  Raise (mkHTTPException 400 "Email already exists").
Proof.
  intros Htry Hu He. rewrite register_run.
  destruct (Auth.register_try env user_data w) as [w' r]. simpl in Htry. subst r.
  rewrite register_except_integrity, Hu, He. reflexivity.
Qed.

(** What [login] does: one query, then the two checks. *)
Lemma login_run credentials w :
  Auth.login env credentials w =
  (log Query w,
   match find (fun r => String.eqb (email r) (UserLogin.email credentials))
              (table w) with
   | None => Raise invalid_credentials
   | Some db_user =>
       if verify_password db_user (UserLogin.password credentials) then
         Ok {| Auth.access_token :=
                 Security.create_access_token env
                   [("sub", JStr (Uuid.str (id db_user)))]
                   (Security.timedelta_minutes 30);
               Auth.token_type := "bearer";
               Auth.user := db_user |}
       else Raise invalid_credentials
   end).
Proof.
  unfold Auth.login, bind, query_first_by_email. simpl.
  destruct (find _ (table w)) as [db_user|]; [|reflexivity].
  destruct (verify_password db_user _); reflexivity.
Qed.

End WithExternals.
End AuthFacts.

(** ** Login *)

Section LoginProperties.
Import PyStr Models Database Schemas Outcome.
Context `{Externals}.

(** C1.  A login whose lookup finds no user and a login whose lookup
    finds a user whose stored hash does not verify the password get the
    same outcome: the handler raises the same exception and the client is
    sent the same response, status 401 with the detail
    "Invalid email or password". *)
Theorem login_failures_indistinguishable
    (env1 env2 : Env) (b1 b2 : UserLogin.Body.t) (c1 c2 : UserLogin.t)
    (w1 w2 : World) (u : User) :
  UserLogin.validate b1 = Ok c1 ->
  UserLogin.validate b2 = Ok c2 ->
  snd (query_first_by_email (E := HTTPException) (UserLogin.email c1) w1)
    = Ok None ->
  snd (query_first_by_email (E := HTTPException) (UserLogin.email c2) w2)
    = Ok (Some u) ->
  verify_password u (UserLogin.password c2) = false ->
  snd (Auth.login env1 c1 w1) = Raise (mkHTTPException 401 "Invalid email or password") /\
  snd (Auth.login env2 c2 w2) = snd (Auth.login env1 c1 w1) /\
  snd (Api.post_login env1 b1 w1) = error_response 401 "Invalid email or password" /\
  snd (Api.post_login env2 b2 w2) = snd (Api.post_login env1 b1 w1).
Proof.
  intros Hb1 Hb2 Habsent Hfound Hwrong.
  unfold query_first_by_email in Habsent, Hfound. simpl in Habsent, Hfound.
  injection Habsent as Habsent. injection Hfound as Hfound.
  assert (L1 : snd (Auth.login env1 c1 w1) = Raise invalid_credentials)
    by (rewrite AuthFacts.login_run; simpl; now rewrite Habsent).
  assert (L2 : snd (Auth.login env2 c2 w2) = Raise invalid_credentials)
    by (rewrite AuthFacts.login_run; simpl; now rewrite Hfound, Hwrong).
  assert (R1 : snd (Api.post_login env1 b1 w1)
               = error_response 401 "Invalid email or password").
  { unfold Api.post_login. rewrite Hb1.
    destruct (Auth.login env1 c1 w1) as [w' r]. simpl in L1. subst r.
    reflexivity. }
  assert (R2 : snd (Api.post_login env2 b2 w2)
               = error_response 401 "Invalid email or password").
  { unfold Api.post_login. rewrite Hb2.
    destruct (Auth.login env2 c2 w2) as [w' r]. simpl in L2. subst r.
    reflexivity. }
  repeat split.
  - exact L1.
  - now rewrite L1, L2.
  - exact R1.
  - now rewrite R1, R2.
Qed.

(** C4.  The token of a successful login is the signature of a claims
    set that holds the subject, the [str] of the id of the user who was
    looked up and whose password verified, and the expiry, 30 minutes
    (1800 seconds) after the time of issue, and nothing else. *)
Theorem login_token_claims
    (env : Env) (credentials : UserLogin.t) (w w' : World)
    (r : Auth.LoginResult) :
  Auth.login env credentials w = (w', Ok r) ->
  exists claims,
    Auth.access_token r = jwt_encode claims /\
    lookup "sub" claims = Some (JStr (Uuid.str (id (Auth.user r)))) /\
    lookup "exp" claims = Some (JNum (utcnow env + 1800)) /\
    keys claims = ["sub"; "exp"] /\
    Security.timedelta_minutes 30 = 1800%Z /\
    snd (query_first_by_email (E := HTTPException)
           (UserLogin.email credentials) w) = Ok (Some (Auth.user r)) /\
    verify_password (Auth.user r) (UserLogin.password credentials) = true.
Proof.
  rewrite AuthFacts.login_run. intros Hrun.
  injection Hrun as _ Hres.
  unfold query_first_by_email. simpl.
  destruct (find _ (table w)) as [db_user|]; [|discriminate].
  destruct (verify_password db_user _) eqn:Hv; [|discriminate].
  injection Hres as <-. simpl.
  exists [("sub", JStr (Uuid.str (id db_user)));
          ("exp", JNum (utcnow env + 1800))].
  repeat split; auto.
Qed.

(** C6.  A successful login is answered with status 200 and a body of
    exactly three members: the access token the handler issued, the token
    type "bearer", and the public view of the user who was looked up and
    whose password verified, which is that user's id, username, email and
    created_at and nothing else. *)
Theorem login_success_response
    (env : Env) (b : UserLogin.Body.t) (credentials : UserLogin.t)
    (w w' : World) (r : Auth.LoginResult) :
  UserLogin.validate b = Ok credentials ->
  Auth.login env credentials w = (w', Ok r) ->
  Api.post_login env b w =
    (w', {| status_code := 200;
            body :=
              JObj [("access_token", JStr (Auth.access_token r));
                    ("token_type", JStr "bearer");
                    ("user",
                     JObj [("id", JStr (Uuid.str (id (Auth.user r))));
                           ("username", JStr (username (Auth.user r)));
                           ("email", JStr (email (Auth.user r)));
                           ("created_at",
                            JStr (isoformat (created_at (Auth.user r))))])] |}) /\
  Auth.access_token r =
    Security.create_access_token env
      [("sub", JStr (Uuid.str (id (Auth.user r))))]
      (Security.timedelta_minutes 30) /\
  snd (query_first_by_email (E := HTTPException)
         (UserLogin.email credentials) w) = Ok (Some (Auth.user r)) /\
  verify_password (Auth.user r) (UserLogin.password credentials) = true.
Proof.
  intros Hb Hrun.
  assert (Hres : Auth.token_type r = "bearer" /\
                 Auth.access_token r =
                   Security.create_access_token env
                     [("sub", JStr (Uuid.str (id (Auth.user r))))]
                     (Security.timedelta_minutes 30) /\
                 snd (query_first_by_email (E := HTTPException)
                        (UserLogin.email credentials) w)
                   = Ok (Some (Auth.user r)) /\
                 verify_password (Auth.user r) (UserLogin.password credentials)
                   = true).
  { revert Hrun. rewrite AuthFacts.login_run. intros Hrun.
    injection Hrun as _ Hres. unfold query_first_by_email. simpl.
    destruct (find _ (table w)) as [db_user|]; [|discriminate].
    destruct (verify_password db_user _) eqn:Hv; [|discriminate].
    injection Hres as <-. simpl. auto. }
  destruct Hres as (Htype & Htok & Hq & Hv).
  repeat split; auto.
  unfold Api.post_login. rewrite Hb, Hrun.
  unfold TokenResponse.dump, UserRead.dump, UserRead.from_attributes. simpl.
  rewrite Htype. reflexivity.
Qed.

(** C8, as the route has it.  The address that is looked up is the one
    the email check of the schema returned for the email of the request,
    and stored emails are compared with it character for character.  When
    no stored email equals that address the login is refused with 401,
    whatever the password; when a stored row is the one row with that
    address and its hash verifies the password, the login is answered for
    that row; and a login that is answered with 200 is answered for a
    stored row whose email equals that address. *)
Theorem login_lookup_validated_address
    (env : Env) (b : UserLogin.Body.t) (addr : string) (w : World) :
  EmailStr (UserLogin.Body.email b) = Some addr ->
  ((forall u, In u (table w) -> email u <> addr) ->
   snd (Api.post_login env b w) =
   error_response 401 "Invalid email or password") /\
  (forall u,
     In u (table w) ->
     email u = addr ->
     (forall v, In v (table w) -> email v = addr -> v = u) ->
     verify_password u (UserLogin.Body.password b) = true ->
     snd (Api.post_login env b w) = login_response env u) /\
  (status_code (snd (Api.post_login env b w)) = 200%Z ->
   exists u,
     In u (table w) /\ email u = addr /\
     verify_password u (UserLogin.Body.password b) = true /\
     snd (Api.post_login env b w) = login_response env u).
Proof.
  intros Hmail.
  assert (Hb : UserLogin.validate b =
               Ok {| UserLogin.email := addr;
                     UserLogin.password := UserLogin.Body.password b |})
    by (unfold UserLogin.validate; now rewrite Hmail).
  assert (Hsome : forall u,
            find (fun r => String.eqb (email r) addr) (table w) = Some u ->
            In u (table w) /\ email u = addr).
  { intros u Hf. apply find_some in Hf. destruct Hf as [Hin Heq].
    split; [exact Hin | now apply String.eqb_eq]. }
  assert (Hrun : snd (Api.post_login env b w) =
                 match find (fun r => String.eqb (email r) addr) (table w) with
                 | None => error_response 401 "Invalid email or password"
                 | Some u =>
                     if verify_password u (UserLogin.Body.password b)
                     then login_response env u
                     else error_response 401 "Invalid email or password"
                 end).
  { unfold Api.post_login. rewrite Hb, AuthFacts.login_run. simpl.
    destruct (find _ (table w)) as [u|]; [|reflexivity].
    destruct (verify_password u _); reflexivity. }
  rewrite Hrun.
  destruct (find (fun r => String.eqb (email r) addr) (table w)) as [v|] eqn:Hf.
  - destruct (Hsome v eq_refl) as [Hin Heq]. split; [|split].
    + intros Hnone. now apply Hnone in Hin.
    + intros u Hu Hue Honly Hv. rewrite <- (Honly v Hin Heq) in Hv.
      rewrite Hv. now rewrite (Honly v Hin Heq).
    + destruct (verify_password v (UserLogin.Body.password b)) eqn:Hv.
      * intros _. exists v. auto.
      * discriminate.
  - split; [|split].
    + reflexivity.
    + intros u Hu Hue _ _. exfalso. apply (find_none _ _ Hf) in Hu.
      apply String.eqb_neq in Hu. contradiction.
    + discriminate.
Qed.

End LoginProperties.

(** ** Registration *)

Section RegisterProperties.
Import PyStr Models Database Schemas Outcome.
Local Open Scope list_scope.
Context `{Externals}.

(** C2, as the handler has it.  When the try block fails with an
    exception that is not an IntegrityError, the handler calls rollback
    on the session, so that the call is the last of the trace and nothing
    is pending, and then raises status 500 with the detail
    "Internal server error: " followed by the text of that exception, so
    the text is part of what the client is sent. *)
Theorem register_unexpected_failure
    (env : Env) (user_data : UserCreate.t) (w : World) (text : string) :
  snd (Auth.register_try env user_data w) = Raise (OtherError text) ->
  Auth.register env user_data w =
    (rolled_back (fst (Auth.register_try env user_data w)),
     Raise (mkHTTPException 500 ("Internal server error: " ++ text)%string)) /\
  trace (fst (Auth.register env user_data w)) =
    trace (fst (Auth.register_try env user_data w)) ++ [Rollback] /\
  pending (fst (Auth.register env user_data w)) = [] /\
  str_in text ("Internal server error: " ++ text)%string = true /\
  (forall b, UserCreate.validate b = Ok user_data ->
     Api.post_register env b w =
     (rolled_back (fst (Auth.register_try env user_data w)),
      error_response 500 ("Internal server error: " ++ text)%string)).
Proof.
  intros Htry.
  assert (Hreg : Auth.register env user_data w =
                 (rolled_back (fst (Auth.register_try env user_data w)),
                  Raise (mkHTTPException 500
                           ("Internal server error: " ++ text)%string))).
  { rewrite AuthFacts.register_run.
    destruct (Auth.register_try env user_data w) as [w' r].
    simpl in Htry. subst r. reflexivity. }
  split; [exact Hreg|]. rewrite Hreg.
  split; [reflexivity|]. split; [reflexivity|].
  split; [apply PyStrFacts.str_in_suffix|].
  intros b Hb. unfold Api.post_register. rewrite Hb, Hreg. reflexivity.
Qed.

(** C10.  When the try block fails with an IntegrityError whose text
    contains neither "username" nor "email", the handler raises status 400
    with the detail "Registration failed", and that is the response. *)
Theorem register_integrity_unclassified
    (env : Env) (user_data : UserCreate.t) (w : World) (text : string) :
  snd (Auth.register_try env user_data w) = Raise (IntegrityError text) ->
  str_in "username" text = false ->
  str_in "email" text = false ->
  snd (Auth.register env user_data w) =
    Raise (mkHTTPException 400 "Registration failed") /\
  (forall b, UserCreate.validate b = Ok user_data ->
     snd (Api.post_register env b w) =
     error_response 400 "Registration failed").
Proof.
  intros Htry Hu He.
  assert (Hreg : snd (Auth.register env user_data w) =
                 Raise (mkHTTPException 400 "Registration failed")).
  { rewrite AuthFacts.register_run.
    destruct (Auth.register_try env user_data w) as [w' r].
    simpl in Htry. subst r.
    rewrite AuthFacts.register_except_integrity, Hu, He. reflexivity. }
  split; [exact Hreg|].
  intros b Hb. unfold Api.post_register. rewrite Hb.
  destruct (Auth.register env user_data w) as [w' r].
  simpl in Hreg. subst r. reflexivity.
Qed.

(** C5.  A registration that succeeds is answered with status 201 and a
    body of exactly four members, id, username, email and created_at, of
    the row that was created; the body has no password and no
    password_hash member, and it is the same for any two users who differ
    only in their password hash. *)
Theorem register_success_response
    (env : Env) (b : Body.t) (user_data : UserCreate.t) (w w' : World)
    (db_user : User) :
  UserCreate.validate b = Ok user_data ->
  Auth.register env user_data w = (w', Ok db_user) ->
  exists fields,
    Api.post_register env b w =
      (w', {| status_code := 201; body := JObj fields |}) /\
    fields = [("id", JStr (Uuid.str (uuid4 env)));
              ("username", JStr (UserCreate.username user_data));
              ("email", JStr (UserCreate.email user_data));
              ("created_at", JStr (isoformat (utcnow env)))] /\
    keys fields = ["id"; "username"; "email"; "created_at"]%string /\
    ~ In "password"%string (keys fields) /\
    ~ In "password_hash"%string (keys fields) /\
    In db_user (table w') /\
    (forall other : User,
       id other = id db_user -> username other = username db_user ->
       email other = email db_user -> created_at other = created_at db_user ->
       UserRead.dump (UserRead.from_attributes other) = JObj fields).
Proof.
  intros Hb Hreg.
  assert (Htry : Auth.register_try env user_data w = (w', Ok db_user)).
  { revert Hreg. rewrite AuthFacts.register_run.
    destruct (Auth.register_try env user_data w) as [w1 [u|e]].
    - intros Heq. injection Heq as -> ->. reflexivity.
    - destruct (AuthFacts.register_except_run e w1) as (st & d & ->).
      discriminate. }
  destruct (AuthFacts.register_try_ok _ _ _ _ _ Htry) as (Hu & Ht & _ & _).
  eexists. split; [|split; [reflexivity|]].
  - unfold Api.post_register. rewrite Hb, Hreg.
    unfold UserRead.dump, UserRead.from_attributes. simpl.
    rewrite Hu. reflexivity.
  - split; [reflexivity|]. split; [|split; [|split]].
    + simpl. intros [F|[F|[F|[F|[]]]]]; discriminate.
    + simpl. intros [F|[F|[F|[F|[]]]]]; discriminate.
    + rewrite Ht. apply in_or_app. right. apply in_or_app. right. now left.
    + intros other Hi Hn He Hc.
      unfold UserRead.dump, UserRead.from_attributes. simpl.
      rewrite Hi, Hn, He, Hc, Hu. reflexivity.
Qed.


(** C9.  A body whose username is shorter than 3 or longer than 50
    characters, whose email the email check rejects, or whose password is
    shorter than 8 characters is answered with the validation error, and
    the world is as before: nothing was hashed, added or committed. *)
Theorem register_validation_gate
    (env : Env) (b : Body.t) (w : World) :
  (len (Body.username b) < 3)%Z \/ (50 < len (Body.username b))%Z \/
  EmailStr (Body.email b) = None \/ (len (Body.password b) < 8)%Z ->
  UserCreate.errors b <> [] /\
  (exists errs, UserCreate.validate b = Raise errs) /\
  Api.post_register env b w = (w, Api.validation_error (UserCreate.errors b)) /\
  status_code (snd (Api.post_register env b w)) = 422%Z /\
  trace (fst (Api.post_register env b w)) = trace w.
Proof.
  intros Hbad.
  assert (Herr : UserCreate.errors b <> []).
  { unfold UserCreate.errors. intros Hnil.
    apply app_eq_nil in Hnil. destruct Hnil as [Hu Hrest].
    apply app_eq_nil in Hrest. destruct Hrest as [He Hp].
    destruct Hbad as [Hlt|[Hgt|[Hmail|Hpw]]].
    - apply Z.ltb_lt in Hlt. rewrite Hlt in Hu. discriminate.
    - apply Z.ltb_lt in Hgt. rewrite Hgt, orb_true_r in Hu. discriminate.
    - rewrite Hmail in He. discriminate.
    - apply Z.ltb_lt in Hpw. rewrite Hpw in Hp. discriminate. }
  assert (Hval : UserCreate.validate b = Raise (UserCreate.errors b)).
  { unfold UserCreate.validate.
    destruct (UserCreate.errors b) as [|f fs]; [contradiction|].
    destruct (EmailStr (Body.email b)); reflexivity. }
  assert (Hpost : Api.post_register env b w
                  = (w, Api.validation_error (UserCreate.errors b))).
  { unfold Api.post_register. rewrite Hval. reflexivity. }
  split; [exact Herr|]. split; [eexists; exact Hval|].
  split; [exact Hpost|]. rewrite Hpost. split; reflexivity.
Qed.

End RegisterProperties.

(** ** The properties on the sample requests *)

Module Scenario.
Import PyStr Models Database Schemas Outcome Sample Fixtures.
Local Open Scope list_scope.

(** An unknown email and a wrong password for john get the same 401. *)
Lemma login_failures_indistinguishable_witness :
  snd (Api.post_login (H := plain) env1 unknown_email registered)
    = error_response 401 "Invalid email or password" /\
  snd (Api.post_login (H := plain) env0 wrong_password registered)
    = snd (Api.post_login (H := plain) env1 unknown_email registered).
Proof.
  destruct (login_failures_indistinguishable (H := plain) env1 env0
              unknown_email wrong_password
              unknown_credentials wrong_credentials
              registered registered john)
    as (_ & _ & R1 & R2); try reflexivity.
  split; [exact R1 | exact R2].
Defined.

(** John's token carries his id and an expiry 1800 seconds after the
    login. *)
Lemma login_token_claims_witness :
  exists claims,
    Auth.access_token good_result = jwt_encode (Externals := plain) claims /\
    lookup "sub" claims = Some (JStr "550e8400-e29b-41d4-a716-446655440000") /\
    lookup "exp" claims = Some (JNum (1762603260 + 1800)).
Proof.
  destruct (login_token_claims (H := plain) env1 good_credentials registered
              after_login good_result)
    as (claims & Htok & Hsub & Hexp & _); [reflexivity|].
  exists claims. split; [exact Htok|]. split; [exact Hsub | exact Hexp].
Defined.

Lemma login_success_response_witness :
  Api.post_login (H := plain) env1 good_login registered =
  (after_login,
   {| status_code := 200;
      body :=
        JObj [("access_token",
               JStr "jwt{sub=550e8400-e29b-41d4-a716-446655440000;exp=1762605060}");
              ("token_type", JStr "bearer");
              ("user",
               JObj [("id", JStr "550e8400-e29b-41d4-a716-446655440000");
                     ("username", JStr "johndoe");
                     ("email", JStr "john@example.com");
                     ("created_at", JStr "T1762603200")])] |}).
Proof.
  destruct (login_success_response (H := plain) env1 good_login
              good_credentials registered after_login good_result)
    as (Hpost & _); [reflexivity | reflexivity |].
  exact Hpost.
Defined.

(** On the sample store a login with john's address is answered for
    john. *)
Lemma login_lookup_validated_address_witness :
  snd (Api.post_login (H := plain) env1 good_login registered) =
  login_response (H := plain) env1 john.
Proof.
  destruct (login_lookup_validated_address (H := plain) env1 good_login
              "john@example.com" registered)
    as (_ & Hfound & _); [reflexivity|].
  apply (Hfound john).
  - now left.
  - reflexivity.
  - intros v [<-|[]] _. reflexivity.
  - reflexivity.
Defined.

(** C8 as the spec words it fails when the email check normalises: no
    stored email equals the string the client sent, and the lookup still
    finds john, because it is made with the address the check returned. *)
Lemma login_lookup_not_on_request_string :
  (forall u, In u (table registered) ->
             email u <> UserLogin.Body.email shouting_login) /\
  EmailStr (Externals := normalising) (UserLogin.Body.email shouting_login) =
    Some "john@example.com" /\
  snd (Api.post_login (H := normalising) env1 shouting_login registered) =
    login_response (H := normalising) env1 john.
Proof.
  split; [|split].
  - intros u [<-|[]]. discriminate.
  - reflexivity.
  - reflexivity.
Qed.

(** The comparison itself is exact: with an email check that returns the
    address as sent, john's address with a capital first letter finds
    nobody. *)
Example login_lookup_case_sensitive :
  snd (Api.post_login (H := plain) env1 capital_login registered) =
  error_response 401 "Invalid email or password".
Proof. reflexivity. Qed.

(** The connection is lost at commit: the handler rolls back, raises
    status 500, and the text of the exception is in the detail. *)
Lemma register_unexpected_failure_witness :
  Auth.register (H := plain) env_down john_data empty =
    ({| table := []; pending := [];
        trace := [Hash; Add; Commit; Rollback] |},
     Raise (mkHTTPException 500
              "Internal server error: connection to server was lost")) /\
  str_in "connection to server was lost"
         "Internal server error: connection to server was lost" = true.
Proof.
  destruct (register_unexpected_failure (H := plain) env_down john_data empty
              "connection to server was lost")
    as (Hreg & _ & _ & Hin & _); [reflexivity|].
  split; [exact Hreg | exact Hin].
Defined.

(** C2 as the spec words it fails on that request: the handler raises
    status 500, and no detail it could have raised there leaves the text
    of the exception out. *)
Lemma register_500_detail_echoes_exception :
  snd (Auth.register_try (H := plain) env_down john_data empty) =
    Raise (OtherError "connection to server was lost") /\
  ~ (exists detail,
       snd (Auth.register (H := plain) env_down john_data empty) =
         Raise (mkHTTPException 500 detail) /\
       str_in "connection to server was lost" detail = false).
Proof.
  split; [reflexivity|].
  intros (detail & Hraise & Hout).
  vm_compute in Hraise. injection Hraise as <-.
  vm_compute in Hout. discriminate.
Qed.

Lemma register_integrity_unclassified_witness :
  snd (Api.post_register (H := plain) env_check john_body empty) =
  error_response 400 "Registration failed".
Proof.
  destruct (register_integrity_unclassified (H := plain) env_check john_data
              empty "CHECK constraint failed: users")
    as (_ & Hpost); [reflexivity | reflexivity | reflexivity |].
  apply Hpost. reflexivity.
Defined.

Lemma register_success_response_witness :
  exists fields,
    Api.post_register (H := plain) env0 john_body empty =
      (after_register, {| status_code := 201; body := JObj fields |}) /\
    keys fields = ["id"; "username"; "email"; "created_at"]%string.
Proof.
  destruct (register_success_response (H := plain) env0 john_body john_data
              empty after_register john)
    as (fields & Hpost & _ & Hkeys & _); [reflexivity | reflexivity |].
  exists fields. split; [exact Hpost | exact Hkeys].
Defined.


Lemma register_validation_gate_witness :
  Api.post_register (H := plain) env0 short_body empty =
  (empty, Api.validation_error ["username"%string]).
Proof.
  destruct (register_validation_gate (H := plain) env0 short_body empty)
    as (_ & _ & Hpost & _).
  - left. vm_compute. reflexivity.
  - exact Hpost.
Defined.

(** C3 on SQLite.  John's email is taken and the username is new: the
    store refuses the row for the unique email, the text of the error
    names the failed statement and with it the username column, and the
    client is told that the username exists. *)
Lemma register_duplicate_email_on_sqlite :
  violated (table registered) (new_row (H := plain) env1 jane_data)
    = Some UniqueEmail /\
  snd (Auth.register_try (H := plain) env1 jane_data registered) =
    Raise (IntegrityError
             (sqlite_text UniqueEmail (new_row (H := plain) env1 jane_data))) /\
  str_in "username"
    (sqlite_text UniqueEmail (new_row (H := plain) env1 jane_data)) = true /\
  snd (Api.post_register (H := plain) env1 jane_body registered) =
    error_response 400 "Username already exists".
Proof. repeat split; vm_compute; reflexivity. Qed.

(** The other half of C3 on the same store: john's username with a new
    email is reported as a username conflict. *)
Example register_duplicate_username_on_sqlite :
  snd (Api.post_register (H := plain) env1
         {| Body.username := "johndoe"; Body.email := "jd@example.com";
            Body.password := "AnotherPass456" |} registered) =
  error_response 400 "Username already exists".
Proof. vm_compute. reflexivity. Qed.

(** With a driver whose text names only the column that collided, the
    duplicate email is reported as such. *)
Example register_duplicate_email_column_only :
  snd (Api.post_register (H := plain)
         {| utcnow := utcnow env1; uuid4 := uuid4 env1; gensalt := gensalt env1;
            commit_fault := None; refresh_fault := None;
     constraint_text := column_text |}
         jane_body registered) =
  error_response 400 "Email already exists".
Proof. vm_compute. reflexivity. Qed.

(** The end-to-end scenario: john registers, logs in, and is refused with
    a wrong password. *)
Example scenario_register_then_login :
  Api.post_register (H := plain) env0 john_body empty =
    (after_register,
     {| status_code := 201;
        body := JObj [("id", JStr "550e8400-e29b-41d4-a716-446655440000");
                      ("username", JStr "johndoe");
                      ("email", JStr "john@example.com");
                      ("created_at", JStr "T1762603200")] |}) /\
  status_code (snd (Api.post_login (H := plain) env1 good_login after_register))
    = 200%Z /\
  snd (Api.post_login (H := plain) env1 wrong_password after_register)
    = error_response 401 "Invalid email or password".
Proof. repeat split; vm_compute; reflexivity. Qed.

Example uuid_str_example :
  Uuid.str (Uuid.mkUUID 0x550e8400e29b41d4a716446655440000) =
  "550e8400-e29b-41d4-a716-446655440000"%string.
Proof. vm_compute. reflexivity. Qed.

(** The connection is lost between the commit and the read that follows:
    the client is answered 500 and the row is stored. *)
Example register_read_lost_after_commit :
  Api.post_register (H := plain) env_read_lost john_body empty =
  ({| table := [john]; pending := [];
      trace := [Hash; Add; Commit; Refresh; Rollback] |},
   error_response 500 "Internal server error: connection to server was lost").
Proof. vm_compute. reflexivity. Qed.

End Scenario.

(** * Further properties *)

(** ** The constraints of the users table *)

Module StoreFacts.
Import Models Database Store.
Local Open Scope list_scope.

Lemma uuid_eqb_eq a b : Uuid.eqb a b = true <-> a = b.
Proof.
  destruct a as [x], b as [y]. unfold Uuid.eqb. simpl.
  rewrite N.eqb_eq. split; intros Heq.
  - now subst.
  - now inversion Heq.
Qed.

Lemma existsb_false {A} (p : A -> bool) l :
  existsb p l = false <-> forall x, In x l -> p x = false.
Proof.
  induction l as [|a l IH]; simpl.
  - split; [intros _ x [] | reflexivity].
  - rewrite orb_false_iff, IH. split.
    + intros [Ha Hl] x [<-|Hx]; auto.
    + intros Hall. split; [apply Hall; now left | intros x Hx; apply Hall; now right].
Qed.

(** The insertion of a row is accepted exactly when no row has its id,
    its username or its email. *)
Lemma violated_none_iff rows u : violated rows u = None <-> fresh_for rows u.
Proof.
  unfold violated, fresh_for. split.
  - intros Hv r Hin.
    destruct (existsb (fun r => Uuid.eqb (id r) (id u)) rows) eqn:Hi;
      [discriminate|].
    destruct (existsb (fun r => String.eqb (username r) (username u)) rows)
      eqn:Hn; [discriminate|].
    destruct (existsb (fun r => String.eqb (email r) (email u)) rows)
      eqn:He; [discriminate|].
    rewrite existsb_false in Hi, Hn, He.
    specialize (Hi r Hin). specialize (Hn r Hin). specialize (He r Hin).
    simpl in Hi, Hn, He.
    repeat split.
    + intros Heq. apply uuid_eqb_eq in Heq. congruence.
    + now apply String.eqb_neq.
    + now apply String.eqb_neq.
  - intros Hfresh.
    assert (Hi : existsb (fun r => Uuid.eqb (id r) (id u)) rows = false).
    { apply existsb_false. intros r Hin. destruct (Hfresh r Hin) as (Hid & _).
      destruct (Uuid.eqb (id r) (id u)) eqn:Heq; [|reflexivity].
      apply uuid_eqb_eq in Heq. contradiction. }
    assert (Hn : existsb (fun r => String.eqb (username r) (username u)) rows
                 = false).
    { apply existsb_false. intros r Hin. destruct (Hfresh r Hin) as (_ & Hu & _).
      now apply String.eqb_neq. }
    assert (He : existsb (fun r => String.eqb (email r) (email u)) rows = false).
    { apply existsb_false. intros r Hin. destruct (Hfresh r Hin) as (_ & _ & Hm).
      now apply String.eqb_neq. }
    now rewrite Hi, Hn, He.
Qed.

Lemma fresh_for_prefix rows more u :
  fresh_for (rows ++ more) u -> fresh_for rows u.
Proof. intros Hfresh r Hin. apply Hfresh. apply in_or_app. now left. Qed.

(** A flush that goes through has checked every row against the table
    and the rows written before it. *)
Lemma flush_checked env v :
  forall before after rows rows',
    flush env rows (before ++ v :: after) = Ok rows' ->
    fresh_for (rows ++ before) v.
Proof.
  induction before as [|b before IH]; intros after rows rows' Hf; simpl in Hf.
  - rewrite app_nil_r. apply violated_none_iff.
    destruct (violated rows v); [discriminate | reflexivity].
  - destruct (violated rows b); [discriminate|].
    apply IH in Hf. rewrite <- app_assoc in Hf. exact Hf.
Qed.

(** A flush whose rows are all accepted goes through. *)
Lemma flush_accepts env :
  forall added rows,
    (forall before v after,
        added = before ++ v :: after -> fresh_for (rows ++ before) v) ->
    flush env rows added = Ok (rows ++ added).
Proof.
  induction added as [|u added IH]; intros rows Hall; simpl.
  - now rewrite app_nil_r.
  - assert (Hu : violated rows u = None).
    { apply violated_none_iff. rewrite <- (app_nil_r rows).
      apply (Hall [] u added). reflexivity. }
    rewrite Hu, IH.
    + now rewrite <- app_assoc.
    + intros before v after ->. rewrite <- app_assoc.
      apply (Hall (u :: before) v after). reflexivity.
Qed.

Lemma unique_rows_snoc rows u :
  unique_rows rows -> fresh_for rows u -> unique_rows (rows ++ [u]).
Proof.
  intros (Hi & Hn & He) Hfresh.
  assert (Hsnoc : forall (B : Type) (f : User -> B),
             NoDup (map f rows) ->
             (forall r, In r rows -> f r <> f u) ->
             NoDup (map f (rows ++ [u]))).
  { intros B f Hnd Hne. rewrite map_app. simpl.
    apply (NoDup_Add (a := f u) (l := map f rows)).
    - rewrite <- (app_nil_r (map f rows)) at 1. apply Add_app.
    - split; [exact Hnd|].
      intros Hin. apply in_map_iff in Hin. destruct Hin as (r & Heq & Hr).
      now apply (Hne r Hr). }
  repeat split; apply Hsnoc; auto; intros r Hr; now apply Hfresh.
Qed.

(** The constraints keep the table free of duplicates. *)
Lemma flush_unique env :
  forall added rows rows',
    unique_rows rows -> flush env rows added = Ok rows' -> unique_rows rows'.
Proof.
  induction added as [|u added IH]; intros rows rows' Huniq Hf; simpl in Hf.
  - now inversion Hf; subst.
  - destruct (violated rows u) eqn:Hv; [discriminate|].
    apply (IH (rows ++ [u])); [|exact Hf].
    apply unique_rows_snoc; [exact Huniq | now apply violated_none_iff].
Qed.


End StoreFacts.

(** ** The routes, case by case *)

Module ApiFacts.
Import PyStr Models Database Schemas Outcome Store.
Local Open Scope list_scope.

Section WithExternals.
Context `{Externals}.
Variable env : Env.

(** The detail [register] gives an integrity error. *)
Lemma post_register_run b user_data w :
  UserCreate.validate b = Ok user_data ->
  Api.post_register env b w =
  match Auth.register_try env user_data w with
  | (w', Ok db_user) =>
      (w', {| status_code := 201;
              body := UserRead.dump (UserRead.from_attributes db_user) |})
  | (w', Raise (IntegrityError text)) =>
      (rolled_back w',
       error_response 400
         (if str_in "username" text then "Username already exists"
          else if str_in "email" text then "Email already exists"
          else "Registration failed")%string)
  | (w', Raise (OtherError text)) =>
      (rolled_back w',
       error_response 500 ("Internal server error: " ++ text)%string)
  end.
Proof.
  intros Hb. unfold Api.post_register. rewrite Hb, AuthFacts.register_run.
  destruct (Auth.register_try env user_data w) as [w' [u|[text|text]]].
  - reflexivity.
  - rewrite AuthFacts.register_except_integrity. reflexivity.
  - rewrite AuthFacts.register_except_other. reflexivity.
Qed.

Lemma post_register_invalid b errs w :
  UserCreate.validate b = Raise errs ->
  Api.post_register env b w = (w, Api.validation_error errs).
Proof. intros Hb. unfold Api.post_register. now rewrite Hb. Qed.

Lemma post_login_run b credentials w :
  UserLogin.validate b = Ok credentials ->
  Api.post_login env b w =
  (log Query w,
   match find (fun r => String.eqb (email r) (UserLogin.email credentials))
              (table w) with
   | None => error_response 401 "Invalid email or password"
   | Some db_user =>
       if verify_password db_user (UserLogin.password credentials) then
         {| status_code := 200;
            body :=
              JObj [("access_token",
                     JStr (Auth.access_token (logged_in env db_user)));
                    ("token_type", JStr "bearer");
                    ("user", UserRead.dump (UserRead.from_attributes db_user))] |}
       else error_response 401 "Invalid email or password"
   end).
Proof.
  intros Hb. unfold Api.post_login. rewrite Hb, AuthFacts.login_run.
  destruct (find _ (table w)) as [db_user|]; [|reflexivity].
  destruct (verify_password db_user _); reflexivity.
Qed.

Lemma post_login_invalid b errs w :
  UserLogin.validate b = Raise errs ->
  Api.post_login env b w = (w, Api.validation_error errs).
Proof. intros Hb. unfold Api.post_login. now rewrite Hb. Qed.


End WithExternals.
End ApiFacts.

(** ** Validation, status codes and the store under the routes *)

Section RouteProperties.
Import PyStr Models Database Schemas Outcome Store.
Local Open Scope list_scope.
Context `{Externals}.

(** X1.  A registration body passes validation exactly when its username
    has 3 to 50 characters, its password at least 8 and the email check
    accepts its email; the handler is then given the username and the
    password as sent and the email as the email check returned it. *)
Theorem user_create_validate_iff (b : Body.t) (user_data : UserCreate.t) :
  UserCreate.validate b = Ok user_data <->
  (3 <= len (Body.username b) <= 50)%Z /\
  (8 <= len (Body.password b))%Z /\
  EmailStr (Body.email b) = Some (UserCreate.email user_data) /\
  UserCreate.username user_data = Body.username b /\
  UserCreate.password user_data = Body.password b.
Proof.
  unfold UserCreate.validate, UserCreate.errors.
  destruct (Z.ltb_spec (len (Body.username b)) 3) as [Hlo|Hlo];
  destruct (Z.ltb_spec 50 (len (Body.username b))) as [Hhi|Hhi];
  destruct (Z.ltb_spec (len (Body.password b)) 8) as [Hpw|Hpw];
  destruct (EmailStr (Body.email b)) as [e|]; simpl;
  (split;
   [ intros Hok; try discriminate; injection Hok as <-; simpl;
     repeat split; auto; lia
   | intros (Hu & Hp & He & Hn & Hq); try lia; try discriminate;
     destruct user_data as [n m q]; simpl in *;
     injection He as ->; subst; reflexivity ]).
Qed.

(** X2.  The registration route answers with status 201, 400, 422 or 500
    and no other: 422 when validation fails, 201 when the try block of
    the handler returns, 400 when it raises an IntegrityError and 500
    when it raises anything else. *)
Theorem post_register_status_codes (env : Env) (b : Body.t) (w : World) :
  let status := status_code (snd (Api.post_register env b w)) in
  (status = 201 \/ status = 400 \/ status = 422 \/ status = 500)%Z /\
  (status = 422%Z <-> exists errs, UserCreate.validate b = Raise errs) /\
  (status = 201%Z <->
   exists user_data db_user,
     UserCreate.validate b = Ok user_data /\
     snd (Auth.register_try env user_data w) = Ok db_user) /\
  (status = 400%Z <->
   exists user_data text,
     UserCreate.validate b = Ok user_data /\
     snd (Auth.register_try env user_data w) = Raise (IntegrityError text)) /\
  (status = 500%Z <->
   exists user_data text,
     UserCreate.validate b = Ok user_data /\
     snd (Auth.register_try env user_data w) = Raise (OtherError text)).
Proof.
  cbv zeta.
  destruct (UserCreate.validate b) as [user_data|errs] eqn:Hb.
  - rewrite (ApiFacts.post_register_run env b user_data w Hb).
    destruct (Auth.register_try env user_data w) as [w' [u|[text|text]]]
      eqn:Htry; simpl;
      (split; [auto|]);
      repeat split; intros Hx; try discriminate; try reflexivity;
      try (destruct Hx as (d & x & Hd & Hx);
           injection Hd as <-; rewrite Htry in Hx; discriminate);
      try (destruct Hx as (x & Hx); discriminate);
      try (eexists _, _; split; [reflexivity | rewrite Htry; reflexivity]).
  - rewrite (ApiFacts.post_register_invalid env b errs w Hb). simpl.
    split; [auto|].
    repeat split; intros Hx; try discriminate; eauto;
      destruct Hx as (d & x & Hd & Hx); discriminate.
Qed.

End RouteProperties.

Section ConflictProperties.
Import PyStr Models Database Schemas Outcome Store.
Local Open Scope list_scope.
Context `{Externals}.

(** X3.  An IntegrityError whose text contains "username" is answered
    with 400 "Username already exists", whether or not the text also
    contains "email": the username test comes first. *)
Theorem register_username_detail_first
    (env : Env) (b : Body.t) (user_data : UserCreate.t) (w : World)
    (text : string) :
  UserCreate.validate b = Ok user_data ->
  snd (Auth.register_try env user_data w) = Raise (IntegrityError text) ->
  str_in "username" text = true ->
  snd (Api.post_register env b w) = error_response 400 "Username already exists".
Proof.
  intros Hb Htry Hu. rewrite (ApiFacts.post_register_run env b user_data w Hb).
  destruct (Auth.register_try env user_data w) as [w' r]. simpl in Htry. subst r.
  now rewrite Hu.
Qed.

(** X4.  An IntegrityError whose text contains "email" and does not
    contain "username" is answered with 400 "Email already exists". *)
Theorem register_email_detail
    (env : Env) (b : Body.t) (user_data : UserCreate.t) (w : World)
    (text : string) :
  UserCreate.validate b = Ok user_data ->
  snd (Auth.register_try env user_data w) = Raise (IntegrityError text) ->
  str_in "username" text = false ->
  str_in "email" text = true ->
  snd (Api.post_register env b w) = error_response 400 "Email already exists".
Proof.
  intros Hb Htry Hu He. rewrite (ApiFacts.post_register_run env b user_data w Hb).
  destruct (Auth.register_try env user_data w) as [w' r]. simpl in Htry. subst r.
  now rewrite Hu, He.
Qed.

(** X5.  With the connection up, a registration whose username or email
    some stored row already has is refused with status 400, one of the
    three details of the handler, and the table is as it was with nothing
    pending. *)
Theorem register_taken_refused
    (env : Env) (user_data : UserCreate.t) (w : World) (r : User) :
  commit_fault env = None ->
  In r (table w) ->
  username r = UserCreate.username user_data \/
  email r = UserCreate.email user_data ->
  exists w' detail,
    Auth.register env user_data w = (w', Raise (mkHTTPException 400 detail)) /\
    (detail = "Username already exists" \/ detail = "Email already exists" \/
     detail = "Registration failed")%string /\
    table w' = table w /\ pending w' = [].
Proof.
  intros Hup Hin Htaken.
  rewrite AuthFacts.register_run, AuthFacts.register_try_run, Hup.
  destruct (flush _ _ _) as [rows|e] eqn:Hf.
  - exfalso.
    apply (StoreFacts.flush_checked env _ (pending w) []) in Hf.
    destruct (Hf r (in_or_app _ _ _ (or_introl Hin))) as (_ & Hn & He).
    destruct Htaken as [Heq|Heq]; [apply Hn | apply He]; exact Heq.
  - destruct (DatabaseFacts.flush_raise _ _ _ _ Hf) as [text ->].
    rewrite AuthFacts.register_except_integrity.
    eexists _, _. split; [reflexivity|]. split.
    + destruct (str_in "username" text); [|destruct (str_in "email" text)]; auto.
    + simpl. split; reflexivity.
Qed.

(** X6.  Registration keeps the table free of duplicates: when no two
    rows share an id, a username or an email before a registration, none
    do after it, whatever its outcome. *)
Theorem register_preserves_unique_rows
    (env : Env) (user_data : UserCreate.t) (w : World) :
  unique_rows (table w) ->
  unique_rows (table (fst (Auth.register env user_data w))).
Proof.
  intros Huniq. rewrite AuthFacts.register_run, AuthFacts.register_try_run.
  destruct (commit_fault env) as [e|].
  - destruct (AuthFacts.register_except_run e
                {| table := table w; pending := [];
                   trace := trace w ++ [Hash; Add; Commit] |})
      as (st & d & ->).
    exact Huniq.
  - destruct (flush _ _ _) as [rows|e] eqn:Hf.
    + assert (Hrows : unique_rows rows)
        by (eapply StoreFacts.flush_unique; eauto).
      destruct (refresh_fault env) as [e|]; [|exact Hrows].
      destruct (AuthFacts.register_except_run e
                  {| table := rows; pending := [];
                     trace := trace w ++ [Hash; Add; Commit; Refresh] |})
        as (st & d & ->).
      exact Hrows.
    + destruct (AuthFacts.register_except_run e
                  {| table := table w; pending := [];
                     trace := trace w ++ [Hash; Add; Commit] |})
        as (st & d & ->).
      exact Huniq.
Qed.



End ConflictProperties.

Section MoreLoginProperties.
Import PyStr Models Database Schemas Outcome Store.
Local Open Scope list_scope.
Context `{Externals}.

(** X9.  The login route never writes: whatever the body and the
    outcome, the table and the pending rows are as before, and the only
    call it may add to the trace is the one query. *)
Theorem post_login_read_only (env : Env) (b : UserLogin.Body.t) (w : World) :
  table (fst (Api.post_login env b w)) = table w /\
  pending (fst (Api.post_login env b w)) = pending w /\
  (trace (fst (Api.post_login env b w)) = trace w \/
   trace (fst (Api.post_login env b w)) = trace w ++ [Query]).
Proof.
  destruct (UserLogin.validate b) as [credentials|errs] eqn:Hb.
  - rewrite (ApiFacts.post_login_run env b credentials w Hb). simpl. auto.
  - rewrite (ApiFacts.post_login_invalid env b errs w Hb). simpl. auto.
Qed.


(** X11.  A login body whose email the email check rejects is answered
    with the validation error for the email member and the world is as
    before: no query is made.  The password plays no part in validation:
    two bodies with the same email are both valid or both invalid. *)
Theorem login_validation_gate
    (env : Env) (b : UserLogin.Body.t) (w : World) :
  EmailStr (UserLogin.Body.email b) = None ->
  Api.post_login env b w = (w, Api.validation_error ["email"%string]) /\
  (forall password,
     exists errs,
       UserLogin.validate
         {| UserLogin.Body.email := UserLogin.Body.email b;
            UserLogin.Body.password := password |} = Raise errs).
Proof.
  intros Hmail. split.
  - apply ApiFacts.post_login_invalid.
    unfold UserLogin.validate. now rewrite Hmail.
  - intros password. unfold UserLogin.validate. simpl. rewrite Hmail.
    eexists. reflexivity.
Qed.

End MoreLoginProperties.

(** ** The fixtures *)

Module ConftestFacts.
Import PyStr Models Database Schemas Outcome Store Conftest.
Local Open Scope list_scope.

Section WithExternals.
Context `{Externals}.

(** The [test_user] fixture does what the try block of [register] does
    for its three fixed values. *)
Lemma test_user_as_register_try env :
  test_user env =
  Auth.register_try env
    {| UserCreate.username := "testuser";
       UserCreate.email := "test@example.com";
       UserCreate.password := "TestPassword123" |}.
Proof. reflexivity. Qed.

(** What [seed_users] does: three rows hashed and added, one commit. *)
Lemma seed_users_run env draws fakes w :
  let users := [seeded (draws 0%nat) (fakes 0%nat);
                seeded (draws 1%nat) (fakes 1%nat);
                seeded (draws 2%nat) (fakes 2%nat)] in
  let calls := trace w ++ [Hash; Add; Hash; Add; Hash; Add; Commit] in
  let failed := {| table := table w; pending := []; trace := calls |} in
  seed_users env draws fakes w =
  match commit_fault env with
  | Some e => (failed, Raise e)
  | None =>
      match flush env (table w) (pending w ++ users) with
      | Ok rows => ({| table := rows; pending := []; trace := calls |}, Ok users)
      | Raise e => (failed, Raise e)
      end
  end.
Proof.
  unfold seed_users, for_each, bind, Auth.set_password, add, commit, ret, log,
    seeded, create_fake_user.
  simpl. rewrite <- !app_assoc. simpl.
  destruct (commit_fault env); [reflexivity|].
  destruct (flush _ _ _); reflexivity.
Qed.

(** What a [managed_db_session] block does. *)
Lemma managed_db_session_run {A} env (body : M World Exception A) rows :
  managed_db_session env body rows =
  match body (SessionLocal rows) with
  | (s, Ok a) =>
      match commit env s with
      | (s', Ok _) =>
          ({| session := {| table := table s'; pending := [];
                            trace := trace s' |};
              closed := true; errors := [] |}, Ok a)
      | (s', Raise e) =>
          ({| session := {| table := table s'; pending := [];
                            trace := trace s' ++ [Rollback] |};
              closed := true;
              errors := [("Session error: " ++ str_of e)%string] |}, Raise e)
      end
  | (s, Raise e) =>
      ({| session := {| table := table s; pending := [];
                        trace := trace s ++ [Rollback] |};
          closed := true;
          errors := [("Session error: " ++ str_of e)%string] |}, Raise e)
  end.
Proof.
  unfold managed_db_session, try_finally, try_except, bind, on_session, close,
    logger_error, rollback, raise, ret.
  simpl.
  destruct (body (SessionLocal rows)) as [s [a|e]]; simpl; [|reflexivity].
  destruct (commit env s) as [s' [u|e]]; reflexivity.
Qed.

End WithExternals.
End ConftestFacts.

Section FixtureProperties.
Import PyStr Models Database Schemas Outcome Store Conftest.
Local Open Scope list_scope.
Context `{Externals}.

(** X12.  Tests under [db_session] do not see each other's rows: after
    any test, whatever it did and however it ended, the table is dropped,
    so the next test starts on an empty table and, with the connection
    up at the commit and at the read that follows it, its [test_user]
    fixture returns its row. *)
Theorem db_session_isolates
    {E A} (test : M World E A) (d : TestDb) (env : Env) :
  commit_fault env = None ->
  refresh_fault env = None ->
  fst (db_session test d) = None /\
  (forall B (next : M World E B),
     snd (db_session next (fst (db_session test d))) =
     snd (next {| table := []; pending := []; trace := [] |})) /\
  db_session (test_user env) (fst (db_session test d)) =
    (None, Ok (test_row env)).
Proof.
  intros Hup Hread.
  assert (Hdrop : fst (db_session test d) = None).
  { unfold db_session. destruct (test _). reflexivity. }
  split; [exact Hdrop|]. rewrite Hdrop. split.
  - intros B next. unfold db_session, create_all, SessionLocal.
    destruct (next _). reflexivity.
  - unfold db_session, create_all, SessionLocal.
    rewrite ConftestFacts.test_user_as_register_try.
    rewrite AuthFacts.register_try_run, Hup, Hread. reflexivity.
Qed.

(** X13.  [db_session] does not empty a table it finds: on a table that
    already holds a row named "testuser", the [test_user] fixture raises
    an IntegrityError when the connection is up. *)
Theorem test_user_on_stale_table
    (env : Env) (rows : list User) (r : User) :
  commit_fault env = None ->
  In r rows ->
  username r = "testuser"%string ->
  exists text,
    db_session (test_user env) (Some rows) = (None, Raise (IntegrityError text)).
Proof.
  intros Hup Hin Hname.
  unfold db_session, create_all, SessionLocal.
  rewrite ConftestFacts.test_user_as_register_try.
  rewrite AuthFacts.register_try_run, Hup. simpl.
  destruct (violated rows _) as [c|] eqn:Hv.
  - eexists. reflexivity.
  - exfalso. apply StoreFacts.violated_none_iff in Hv.
    destruct (Hv r Hin) as (_ & Hn & _). apply Hn. exact Hname.
Qed.


(** X15.  [seed_users] writes its three users or none: it hashes and adds
    three rows and commits once, and makes no other call on the session.
    Either the three rows are in the table, after what was there and what
    was pending, and are what it returns, or it raises with the table as
    it was; in both cases nothing is pending afterwards, the failed
    commit having rolled the session back. *)
Theorem seed_users_all_or_nothing
    (env : Env) (draws : nat -> Env) (fakes : nat -> Faker.t) (w : World) :
  let users := [seeded (draws 0%nat) (fakes 0%nat);
                seeded (draws 1%nat) (fakes 1%nat);
                seeded (draws 2%nat) (fakes 2%nat)] in
  exists w' r,
    seed_users env draws fakes w = (w', r) /\
    trace w' = trace w ++ [Hash; Add; Hash; Add; Hash; Add; Commit] /\
    pending w' = [] /\
    ((r = Ok users /\ table w' = table w ++ pending w ++ users)
     \/
     (exists e, r = Raise e /\ table w' = table w)).
Proof.
  intros users. rewrite ConftestFacts.seed_users_run. fold users.
  destruct (commit_fault env) as [e|].
  - eexists _, _. split; [reflexivity|]. split; [reflexivity|].
    split; [reflexivity|]. right. exists e. auto.
  - destruct (flush env (table w) (pending w ++ users)) as [rows|e] eqn:Hf.
    + eexists _, _. split; [reflexivity|]. split; [reflexivity|].
      split; [reflexivity|].
      left. simpl. apply DatabaseFacts.flush_ok in Hf. subst rows. auto.
    + eexists _, _. split; [reflexivity|]. split; [reflexivity|].
      split; [reflexivity|]. right. exists e. auto.
Qed.

(** X16.  When Faker returns the same username or the same email in two
    of the three iterations, [seed_users] raises and seeds nothing. *)
Theorem seed_users_repeated_fake
    (env : Env) (draws : nat -> Env) (fakes : nat -> Faker.t) (w : World)
    (i j : nat) :
  (i < j < 3)%nat ->
  Faker.user_name (fakes i) = Faker.user_name (fakes j) \/
  Faker.email (fakes i) = Faker.email (fakes j) ->
  exists w' e,
    seed_users env draws fakes w = (w', Raise e) /\ table w' = table w.
Proof.
  intros Hij Hsame. rewrite ConftestFacts.seed_users_run. cbv zeta.
  destruct (commit_fault env) as [e|].
  - eexists _, _. split; reflexivity.
  - destruct (flush _ _ _) as [rows|e] eqn:Hf.
    + exfalso.
      assert (Hcases : ((i = 0 /\ j = 1) \/ (i = 0 /\ j = 2) \/
                        (i = 1 /\ j = 2))%nat) by lia.
      set (u0 := seeded (draws 0%nat) (fakes 0%nat)) in *.
      set (u1 := seeded (draws 1%nat) (fakes 1%nat)) in *.
      set (u2 := seeded (draws 2%nat) (fakes 2%nat)) in *.
      destruct Hcases as [[-> ->]|[[-> ->]|[-> ->]]].
      * change (pending w ++ [u0; u1; u2])
          with (pending w ++ [u0] ++ u1 :: [u2]) in Hf.
        rewrite app_assoc in Hf. apply StoreFacts.flush_checked in Hf.
        destruct (Hf u0) as (_ & Hn & He).
        { apply in_or_app. right. apply in_or_app. right. now left. }
        destruct Hsame as [Heq|Heq]; [apply Hn | apply He]; exact Heq.
      * change (pending w ++ [u0; u1; u2])
          with (pending w ++ [u0; u1] ++ u2 :: []) in Hf.
        rewrite app_assoc in Hf. apply StoreFacts.flush_checked in Hf.
        destruct (Hf u0) as (_ & Hn & He).
        { apply in_or_app. right. apply in_or_app. right. now left. }
        destruct Hsame as [Heq|Heq]; [apply Hn | apply He]; exact Heq.
      * change (pending w ++ [u0; u1; u2])
          with (pending w ++ [u0; u1] ++ u2 :: []) in Hf.
        rewrite app_assoc in Hf. apply StoreFacts.flush_checked in Hf.
        destruct (Hf u1) as (_ & Hn & He).
        { apply in_or_app. right. apply in_or_app. right. right. now left. }
        destruct Hsame as [Heq|Heq]; [apply Hn | apply He]; exact Heq.
    + eexists _, _. split; reflexivity.
Qed.

(** X17.  A [managed_db_session] block always ends with its session
    closed and nothing pending.  It raises exactly what the body followed
    by the commit raises, after one "Session error: ..." line with the
    text of that exception, and it returns what the body returned, with
    nothing logged, when neither raises. *)
Theorem managed_db_session_closes_and_reraises
    {A} (env : Env) (body : M World Exception A) (rows : list User) :
  let h := fst (managed_db_session env body rows) in
  let r := snd (managed_db_session env body rows) in
  closed h = true /\
  pending (session h) = [] /\
  r = snd (bind body (fun a => bind (commit env) (fun _ => ret a))
             (SessionLocal rows)) /\
  errors h =
    match r with
    | Ok _ => []
    | Raise e => [("Session error: " ++ str_of e)%string]
    end.
Proof.
  cbv zeta. rewrite ConftestFacts.managed_db_session_run. unfold bind.
  destruct (body (SessionLocal rows)) as [s [a|e]]; simpl; [|auto].
  destruct (commit env s) as [s' [u|e]]; simpl; auto.
Qed.

(** X18.  A [managed_db_session] block whose body never changes the table
    itself writes all of what the body added or nothing: when the block
    returns, the table is the old one followed by the rows the body left
    pending, and when it raises the table is the old one. *)
Theorem managed_db_session_all_or_nothing
    {A} (env : Env) (body : M World Exception A) (rows : list User) :
  (forall w, table (fst (body w)) = table w) ->
  let h := fst (managed_db_session env body rows) in
  match snd (managed_db_session env body rows) with
  | Ok _ => table (session h) = rows ++ pending (fst (body (SessionLocal rows)))
  | Raise _ => table (session h) = rows
  end.
Proof.
  intros Hkeeps. cbv zeta. rewrite ConftestFacts.managed_db_session_run.
  specialize (Hkeeps (SessionLocal rows)).
  destruct (body (SessionLocal rows)) as [s [a|e]]; simpl in *; [|exact Hkeeps].
  unfold commit.
  destruct (commit_fault env); simpl; [exact Hkeeps|].
  destruct (flush env (table s) (pending s)) as [rows'|e] eqn:Hf; simpl.
  - apply DatabaseFacts.flush_ok in Hf. now rewrite Hf, Hkeeps.
  - exact Hkeeps.
Qed.

End FixtureProperties.

(** ** The further properties on sample requests *)

Module MoreScenario.
Import PyStr Models Database Schemas Outcome Store Conftest Sample Fixtures.
Local Open Scope list_scope.

Lemma register_username_detail_first_witness :
  snd (Api.post_register (H := plain) env1 jd_body registered) =
  error_response 400 "Username already exists".
Proof.
  apply (register_username_detail_first (H := plain) env1 jd_body jd_data
           registered
           (sqlite_text UniqueUsername (new_row (H := plain) env1 jd_data)));
    reflexivity.
Defined.

Lemma register_email_detail_witness :
  snd (Api.post_register (H := plain) env_column jane_body registered) =
  error_response 400 "Email already exists".
Proof.
  apply (register_email_detail (H := plain) env_column jane_body jane_data
           registered "UNIQUE constraint failed: users.email");
    reflexivity.
Defined.

Lemma register_taken_refused_witness :
  exists w' detail,
    Auth.register (H := plain) env1 jane_data registered =
      (w', Raise (mkHTTPException 400 detail)) /\
    table w' = [john].
Proof.
  destruct (register_taken_refused (H := plain) env1 jane_data registered john)
    as (w' & detail & Hrun & _ & Ht & _).
  - reflexivity.
  - now left.
  - right. reflexivity.
  - exists w', detail. split; [exact Hrun | exact Ht].
Defined.

Lemma register_preserves_unique_rows_witness :
  unique_rows (table (fst (Auth.register (H := plain) env1 mary_data registered))).
Proof.
  apply (register_preserves_unique_rows (H := plain) env1 mary_data registered).
  repeat split; simpl; (constructor; [intros [] | constructor]).
Defined.



Lemma login_validation_gate_witness :
  Api.post_login (H := plain) env1 bad_login registered =
  (registered, Api.validation_error ["email"%string]).
Proof.
  destruct (login_validation_gate (H := plain) env1 bad_login registered)
    as (Hpost & _).
  - reflexivity.
  - exact Hpost.
Defined.

Lemma db_session_isolates_witness :
  db_session (test_user (H := plain) env1)
    (fst (db_session (Auth.register_try (H := plain) env0 john_data) None)) =
  (None, Ok (test_row (H := plain) env1)).
Proof.
  destruct (db_session_isolates (H := plain)
              (Auth.register_try (H := plain) env0 john_data) None env1)
    as (_ & _ & Hnext).
  - reflexivity.
  - reflexivity.
  - exact Hnext.
Defined.

Lemma test_user_on_stale_table_witness :
  exists text,
    db_session (test_user (H := plain) env1)
      (Some [test_row (H := plain) env0]) =
    (None, Raise (IntegrityError text)).
Proof.
  apply (test_user_on_stale_table (H := plain) env1
           [test_row (H := plain) env0] (test_row (H := plain) env0)).
  - reflexivity.
  - now left.
  - reflexivity.
Defined.


Lemma seed_users_repeated_fake_witness :
  exists w' e,
    seed_users (H := plain) env0 draws repeated empty = (w', Raise e) /\
    table w' = [].
Proof.
  apply (seed_users_repeated_fake (H := plain) env0 draws repeated empty 0 1).
  - lia.
  - left. reflexivity.
Defined.

Lemma managed_db_session_all_or_nothing_witness :
  table (session (fst (managed_db_session env0 (add john) []))) = [john].
Proof.
  apply (managed_db_session_all_or_nothing env0 (add john) []).
  intros w. reflexivity.
Defined.

(** The three sample users are seeded together. *)
Example seed_users_sample :
  snd (seed_users (H := plain) env0 draws fakes empty) =
  Ok [seeded (H := plain) (draws 0%nat) (fakes 0%nat);
      seeded (H := plain) (draws 1%nat) (fakes 1%nat);
      seeded (H := plain) (draws 2%nat) (fakes 2%nat)].
Proof. vm_compute. reflexivity. Qed.

(** A block that adds a row with john's email on a table that has john
    raises and logs the error. *)
Example managed_db_session_sample :
  errors (fst (managed_db_session env1
                 (add (new_row (H := plain) env1 jane_data)) [john])) =
  [("Session error: " ++
    sqlite_text UniqueEmail (new_row (H := plain) env1 jane_data))%string].
Proof. vm_compute. reflexivity. Qed.

End MoreScenario.
